(** * ansiblereporter.cli: script wrappers for ansible commands and playbooks

    A shallow embedding of [src/ansiblereporter/cli.py].  The module wraps
    the ansible runner classes in [systematic.shell.Script] subclasses:
    [GenericAnsibleScript] (shared validation in [parse_args], the SIGINT
    handler), [AnsibleScript] (ad-hoc commands) and [PlaybookScript].

    The argparse namespace is a finite map from attribute names to Python
    values; the script object is a record of its two fields; the external
    collaborators (inventory, getpass, vault reader, runner classes) are
    fields of a [World]; every call that leaves the module is recorded in a
    trace of events. *)

From stdpp Require Import base strings gmap list pretty.
From Stdlib Require Import ZArith Ascii String.

Local Open Scope string_scope.
Local Open Scope Z_scope.
Local Open Scope list_scope.

(** ** Python values *)

Module Py.

(** The values argparse can put into a namespace for the flags declared in
    this module: [None], booleans ([store_true]), integers ([type=int]),
    strings, and lists of strings ([nargs='*']). *)
Inductive value :=
| VNone
| VBool (b : bool)
| VInt (n : Z)
| VStr (s : string)
| VList (l : list string).

(** Python truth value, as tested by [if x:] and [not x]. *)
Definition truthy (v : value) : bool :=
  match v with
  | VNone => false
  | VBool b => b
  | VInt n => negb (n =? 0)
  | VStr s => negb (String.eqb s "")
  | VList l => negb (bool_decide (l = []))
  end.

(** [x is None] *)
Definition is_none (v : value) : bool :=
  match v with VNone => true | _ => false end.

Definition type_name (v : value) : string :=
  match v with
  | VNone => "NoneType"
  | VBool _ => "bool"
  | VInt _ => "int"
  | VStr _ => "str"
  | VList _ => "list"
  end.

Definition hex_digit (n : N) : ascii :=
  match String.get (N.to_nat n) "0123456789abcdef" with
  | Some c => c
  | None => "0"%char
  end.

Definition double_quote : ascii := ascii_of_nat 34.

Definition contains (c : ascii) (s : string) : bool :=
  existsb (Ascii.eqb c) (list_ascii_of_string s).

(** [repr] of a byte string (Python 2): single quotes unless the string has
    a single quote and no double quote; the quote and the backslash are
    escaped, tab, newline and carriage return have their letters, other
    bytes outside the printable range are written in hexadecimal. *)
Definition repr_char (quote c : ascii) : string :=
  let n := N_of_ascii c in
  if Ascii.eqb c quote || Ascii.eqb c "\"%char then String "\"%char (String c "")
  else if (n =? 9)%N then "\t"
  else if (n =? 10)%N then "\n"
  else if (n =? 13)%N then "\r"
  else if (n <? 32)%N || (127 <=? n)%N then
    String "\"%char (String "x"%char
      (String (hex_digit (n / 16)) (String (hex_digit (n mod 16)) "")))
  else String c "".

Definition repr_str (s : string) : string :=
  let quote :=
    if contains "'"%char s && negb (contains double_quote s)
    then double_quote else "'"%char in
  String quote
    (String.concat "" (map (repr_char quote) (list_ascii_of_string s))
     +:+ String quote "").

(** [str(x)], the conversion applied by the [%s] format. *)
Definition str (v : value) : string :=
  match v with
  | VNone => "None"
  | VBool true => "True"
  | VBool false => "False"
  | VInt n => pretty n
  | VStr s => s
  | VList l => "[" +:+ String.concat ", " (map repr_str l) +:+ "]"
  end.

End Py.
Export Py.

(** ** Exceptions and results *)

Inductive exn :=
| SystemExit (code : Z)
| KeyboardInterrupt
| NameError (name : string)
| AttributeError (attr : string)
| TypeError (msg : string)
| AnsibleError (msg : string)
| RunnerError (msg : string)
| OtherError (cls msg : string).

Inductive res (A : Type) :=
| Ok (a : A)
| Raise (e : exn).
Arguments Ok {A} a.
Arguments Raise {A} e.

#[global] Instance res_ret : MRet res := λ A a, Ok a.
#[global] Instance res_bind : MBind res := λ A B f r,
  match r with
  | Ok a => f a
  | Raise e => Raise e
  end.

(** The [%d] format: integers (and booleans, which are integers) are
    written in decimal, anything else is a [TypeError]. *)
Definition format_d (v : value) : res string :=
  match v with
  | VInt n => Ok (pretty n)
  | VBool b => Ok (if b then "1" else "0")
  | _ => Raise (TypeError ("%d format: a number is required, not " +:+ type_name v))
  end.

(** ** The script object, the world around it, and the trace *)

Inductive runner_class := AnsibleRunner | PlaybookRunner.

(** Keyword arguments of a runner constructor, in the order the source
    writes them. *)
Abbreviation kwargs := (list (string * value)).

(** A runner object: its class and the arguments it was built from. *)
Abbreviation runner_obj := (runner_class * kwargs)%type.

(** [self.runner] and [self.mode] of a [GenericAnsibleScript]. *)
Record Script := {
  runner : option runner_obj;
  mode : string;
}.

Definition set_mode (m : string) (self : Script) : Script :=
  {| runner := runner self; mode := m |}.

(** Calls that leave the module, with their arguments. [RunnerRun] also
    records the value of [self.runner] at the moment [runner.run()] is
    entered: it is what the SIGINT handler reads while the call is in
    flight. *)
Inductive event :=
| Message (text : string)
| Exit (code : Z) (msg : option string)
| ListHosts (inventory pattern : value)
| Getpass (prompt : string)
| ReadVaultFile (path : value)
| NewRunner (cls : runner_class) (kw : kwargs)
| RunnerRun (cls : runner_class) (kw : kwargs) (registered : option runner_obj).

(** What happens while [runner.run()] is in flight: it completes by itself
    (returning or raising), or a SIGINT arrives, the handler raises into the
    call, and the engine reacts to the exception it finds in its frame (an
    engine that does not intercept it lets it through: [react = Raise]). *)
Inductive in_flight :=
| Completes (r : res value)
| Interrupted (react : exn → res value).

Record World := {
  ansible_reporter_version : string;
  ansible_version : string;
  (** value bound to an imported module-level name *)
  constant : string → value;
  (** [Inventory(inventory).list_hosts(pattern)] *)
  list_hosts : value → value → res (list string);
  (** [getpass.getpass(prompt)] *)
  getpass : string → res string;
  (** [utils.read_vault_file(path)] *)
  read_vault_file : value → res value;
  (** [os.path.realpath(path)] *)
  realpath : value → res value;
  (** the constructor call of [runner_class] with its keyword arguments *)
  runner_new : runner_class → kwargs → res unit;
  (** [runner.run()] *)
  runner_run : runner_class → kwargs → in_flight;
}.

(** ** The method monad: state of [self], trace, result or exception *)

Definition M (A : Type) : Type := Script → Script * list event * res A.

#[global] Instance M_ret : MRet M := λ A a self, (self, [], Ok a).
#[global] Instance M_bind : MBind M := λ A B f m self,
  match m self with
  | (self', t, Ok a) =>
      match f a self' with
      | (self'', t', r) => (self'', t ++ t', r)
      end
  | (self', t, Raise e) => (self', t, Raise e)
  end.

Definition raise {A} (e : exn) : M A := λ self, (self, [], Raise e).
Definition emit (ev : event) : M unit := λ self, (self, [ev], Ok tt).
Definition lift {A} (r : res A) : M A := λ self, (self, [], r).
Definition external {A} (ev : event) (r : res A) : M A := emit ev ;; lift r.
Definition when (b : bool) (m : M unit) : M unit := if b then m else mret tt.

(** [self.mode = m] *)
Definition assign_mode (m : string) : M unit := λ self, (set_mode m self, [], Ok tt).

Definition state_of {A} (x : Script * list event * res A) : Script := x.1.1.
Definition trace_of {A} (x : Script * list event * res A) : list event := x.1.2.
Definition result_of {A} (x : Script * list event * res A) : res A := x.2.

(** [args.name] on an [argparse.Namespace]: a missing attribute raises. *)
Definition getattr (args : gmap string value) (name : string) : M value :=
  match args !! name with
  | Some v => mret v
  | None => raise (AttributeError name)
  end.

(** [args.name = v] *)
Definition setattr (args : gmap string value) (name : string) (v : value)
  : gmap string value := <[name := v]> args.

(** Modelled from the spec: [Script.message] and [Script.exit] of
    [systematic.shell], which are not in src.  [message] prints a line;
    [exit] prints the message, when one is given, and terminates the process
    with the code (in Python, by raising [SystemExit]). *)
Definition message (text : string) : M unit := emit (Message text).

Definition exit {A} (code : Z) (msg : option string) : M A :=
  emit (Exit code msg) ;; raise (SystemExit code).

(** ** GenericAnsibleScript *)

(** [GenericAnsibleScript.__init__]: the fields of a fresh script. *)
Definition new_script : Script := {| runner := None; mode := "" |}.

(** [GenericAnsibleScript.SIGINT]: never returns normally. *)
Definition SIGINT : M Empty_set := λ self,
  match runner self with
  | Some _ => raise KeyboardInterrupt self
  | None => exit 1 None self
  end.

(** [GenericAnsibleScript.show_version] *)
Definition show_version (w : World) : M unit :=
  message (ansible_reporter_version w +:+ " (ansible " +:+ ansible_version w +:+ ")").

(** The checks of [GenericAnsibleScript.parse_args], one definition per
    source statement, applied to the namespace [Script.parse_args] returned. *)

Definition check_version (w : World) (args : gmap string value) : M unit :=
  version ← getattr args "version";
  when (truthy version) (show_version w ;; exit 0 None).

Definition check_inventory (args : gmap string value) : M unit :=
  inventory ← getattr args "inventory";
  when (is_none inventory) (exit 1 (Some "Could not detect default inventory path")).

Definition check_pattern (w : World) (args : gmap string value) : M unit :=
  unmatched ←
    (match args !! "pattern" with
     | Some _ =>
         inventory ← getattr args "inventory";
         pattern ← getattr args "pattern";
         hosts ← external (ListHosts inventory pattern) (list_hosts w inventory pattern);
         mret (negb (truthy (VList hosts)))
     | None => mret false
     end);
  when unmatched (exit 1 (Some "No hosts matched")).

Definition resolve_remote_pass (w : World) (args : gmap string value)
  : M (gmap string value) :=
  ask_pass ← getattr args "ask_pass";
  if truthy ask_pass then
    p ← external (Getpass "Enter remote user password: ")
                 (getpass w "Enter remote user password: ");
    mret (setattr args "remote_pass" (VStr p))
  else mret (setattr args "remote_pass" VNone).

Definition resolve_become_pass (w : World) (args : gmap string value)
  : M (gmap string value) :=
  ask_become_pass ← getattr args "ask_become_pass";
  if truthy ask_become_pass then
    p ← external (Getpass "Enter become password: ")
                 (getpass w "Enter become password: ");
    mret (setattr args "become_pass" (VStr p))
  else mret (setattr args "become_pass" VNone).

Definition resolve_mode (args : gmap string value) : M unit :=
  become ← getattr args "become";
  if truthy become then
    become_user ← getattr args "become_user";
    assign_mode ("become " +:+ str become_user +:+ " ")
  else
    su ← getattr args "su";
    if truthy su then
      su_user ← getattr args "su_user";
      assign_mode ("su " +:+ str su_user +:+ " ")
    else mret tt.

Definition resolve_vault (w : World) (args : gmap string value)
  : M (gmap string value) :=
  vault_password_file ← getattr args "vault_password_file";
  if truthy vault_password_file then
    secret ← external (ReadVaultFile vault_password_file)
                      (read_vault_file w vault_password_file);
    mret (setattr args "vault_pass" secret)
  else mret (setattr args "vault_pass" (VBool false)).

(** [GenericAnsibleScript.parse_args] *)
Definition parse_args (w : World) (args : gmap string value)
  : M (gmap string value) :=
  check_version w args ;;
  check_inventory args ;;
  check_pattern w args ;;
  args ← resolve_remote_pass w args;
  args ← resolve_become_pass w args;
  resolve_mode args ;;
  resolve_vault w args.

(** ** The runner adapters *)

(** [except AnsibleError, emsg: raise RunnerError(emsg)]: the one handler of
    both [run] methods.  Every other exception passes through. *)
Definition translate (r : res value) : res value :=
  match r with
  | Raise (AnsibleError emsg) => Raise (RunnerError emsg)
  | _ => r
  end.

(** [runner.run()] while it is in flight.  An interrupt runs the SIGINT
    handler of the script in its current state; the exception the handler
    raises enters the engine's frame. *)
Definition in_flight_call (w : World) (cls : runner_class) (kw : kwargs) : M value :=
  λ self,
    match runner_run w cls kw with
    | Completes r => (self, [RunnerRun cls kw (runner self)], r)
    | Interrupted react =>
        match SIGINT self with
        | (self', t, Raise e) => (self', RunnerRun cls kw (runner self) :: t, react e)
        | (_, _, Ok impossible) => match impossible with end
        end
    end.

(** The [try: return runner.run() except AnsibleError ...] block. *)
Definition guarded_run (w : World) (cls : runner_class) (kw : kwargs) : M value :=
  λ self,
    match in_flight_call w cls kw self with
    | (self', t, r) => (self', t, translate r)
    end.

(** [self.runner_class(...)]: the constructor call, outside the [try]. *)
Definition new_runner (w : World) (cls : runner_class) (kw : kwargs) : M unit :=
  external (NewRunner cls kw) (runner_new w cls kw).

(** Keyword arguments of [AnsibleScript.run], evaluated in source order. *)
Definition AnsibleScript_kwargs (w : World) (args : gmap string value) : M kwargs :=
  inventory ← getattr args "inventory";
  host_list ← lift (realpath w inventory);
  module_path ← getattr args "module_path";
  module_name ← getattr args "module";
  module_args ← getattr args "args";
  forks_arg ← getattr args "forks";
  forks ← lift (format_d forks_arg);
  timeout ← getattr args "timeout";
  pattern ← getattr args "pattern";
  remote_user ← getattr args "user";
  remote_pass ← getattr args "remote_pass";
  remote_port ← getattr args "port";
  private_key_file ← getattr args "private_key";
  su ← getattr args "su";
  become ← getattr args "become";
  become_user ← getattr args "become_user";
  become_pass ← getattr args "become_pass";
  show_colors ← getattr args "colors";
  mret [("host_list", host_list); ("module_path", module_path);
        ("module_name", module_name); ("module_args", module_args);
        ("forks", VStr forks); ("timeout", timeout); ("pattern", pattern);
        ("remote_user", remote_user); ("remote_pass", remote_pass);
        ("remote_port", remote_port); ("private_key_file", private_key_file);
        ("su", su); ("become", become); ("become_user", become_user);
        ("become_pass", become_pass); ("show_colors", show_colors)].

(** [AnsibleScript.run] *)
Definition AnsibleScript_run (w : World) (args : gmap string value) : M value :=
  kw ← AnsibleScript_kwargs w args;
  new_runner w AnsibleRunner kw ;;
  guarded_run w AnsibleRunner kw.

(** Keyword arguments of [PlaybookScript.run], evaluated in source order. *)
Definition PlaybookScript_kwargs (w : World) (args : gmap string value) : M kwargs :=
  playbook ← getattr args "playbook";
  inventory ← getattr args "inventory";
  host_list ← lift (realpath w inventory);
  module_path ← getattr args "module_path";
  forks_arg ← getattr args "forks";
  forks ← lift (format_d forks_arg);
  timeout ← getattr args "timeout";
  remote_user ← getattr args "user";
  remote_pass ← getattr args "remote_pass";
  become_pass ← getattr args "become_pass";
  remote_port ← getattr args "port";
  private_key_file ← getattr args "private_key";
  become ← getattr args "become";
  become_user ← getattr args "become_user";
  vault_password ← getattr args "vault_pass";
  show_colors ← getattr args "colors";
  show_facts ← getattr args "show_facts";
  mret [("playbook", playbook); ("host_list", host_list);
        ("module_path", module_path); ("forks", VStr forks);
        ("timeout", timeout); ("remote_user", remote_user);
        ("remote_pass", remote_pass); ("become_pass", become_pass);
        ("remote_port", remote_port); ("transport", VStr "smart");
        ("private_key_file", private_key_file); ("become", become);
        ("become_user", become_user); ("extra_vars", VNone);
        ("only_tags", VNone); ("skip_tags", VNone); ("subset", VNone);
        ("inventory", VNone); ("check", VBool false); ("diff", VBool false);
        ("any_errors_fatal", VBool false); ("vault_password", vault_password);
        ("force_handlers", VBool false); ("show_colors", show_colors);
        ("show_facts", show_facts)].

(** [PlaybookScript.run] *)
Definition PlaybookScript_run (w : World) (args : gmap string value) : M value :=
  playbook ← getattr args "playbook";
  when (negb (truthy playbook)) (exit 1 (Some "No playbook provided")) ;;
  kw ← PlaybookScript_kwargs w args;
  new_runner w PlaybookRunner kw ;;
  guarded_run w PlaybookRunner kw.

(** ** The argument schemas *)

(** Names bound at module level when a constructor runs: the imports of
    lines 8-27, [logger], [create_directory] and the three classes. *)
Definition module_globals : list string :=
  ["os"; "threading"; "getpass"; "Script"; "Logger"; "ansible_version"; "utils";
   "DEFAULT_MODULE_NAME"; "DEFAULT_MODULE_PATH"; "DEFAULT_MODULE_ARGS";
   "DEFAULT_TIMEOUT"; "DEFAULT_HOST_LIST"; "DEFAULT_PRIVATE_KEY_FILE";
   "DEFAULT_FORKS"; "DEFAULT_REMOTE_PORT"; "DEFAULT_PATTERN";
   "DEFAULT_BECOME_USER"; "active_user"; "AnsibleError"; "Inventory";
   "RunnerError"; "ansible_reporter_version"; "PlaybookRunner"; "AnsibleRunner";
   "logger"; "create_directory"; "GenericAnsibleScript"; "AnsibleScript";
   "PlaybookScript"].

(** The [default=] expression of an [add_argument] call. *)
Inductive expr :=
| Name (id : string)
| Const (v : value).

(** Evaluation of an expression at call time: a name that is not bound
    raises [NameError]. *)
Definition eval (w : World) (e : expr) : res value :=
  match e with
  | Name id =>
      if bool_decide (id ∈ module_globals) then Ok (constant w id)
      else Raise (NameError id)
  | Const v => Ok v
  end.

(** One [self.add_argument(...)] call: its option strings, the attribute
    argparse stores the value under, and its [default=] keyword if any. *)
Record argument := {
  flags : list string;
  dest : string;
  default : option expr;
}.

(** The parser after [add_argument]: the attributes declared so far.  The
    arguments of the call are evaluated before the call is made. *)
Definition add_argument (w : World) (parser : list string) (a : argument)
  : res (list string) :=
  match default a with
  | Some e => _ ← eval w e; mret (parser ++ [dest a])
  | None => mret (parser ++ [dest a])
  end.

Fixpoint add_arguments (w : World) (parser : list string) (l : list argument)
  : res (list string) :=
  match l with
  | [] => mret parser
  | a :: l => parser ← add_argument w parser a; add_arguments w parser l
  end.

Definition version_argument : argument :=
  {| flags := ["--version"]; dest := "version"; default := None |}.

(** [AnsibleScript.add_common_arguments] *)
Definition AnsibleScript_common_arguments : list argument :=
  [ {| flags := ["-i"; "--inventory"]; dest := "inventory"; default := Some (Name "DEFAULT_HOST_LIST") |};
    {| flags := ["-M"; "--module-path"]; dest := "module_path"; default := Some (Name "DEFAULT_MODULE_PATH") |};
    {| flags := ["-T"; "--timeout"]; dest := "timeout"; default := Some (Name "DEFAULT_TIMEOUT") |};
    {| flags := ["-u"; "--user"]; dest := "user"; default := Some (Name "active_user") |};
    {| flags := ["-U"; "--become-user"]; dest := "become_user"; default := Some (Name "DEFAULT_become_USER") |};
    {| flags := ["--private-key"]; dest := "private_key"; default := Some (Name "DEFAULT_PRIVATE_KEY_FILE") |};
    {| flags := ["-f"; "--forks"]; dest := "forks"; default := Some (Name "DEFAULT_FORKS") |};
    {| flags := ["--port"]; dest := "port"; default := Some (Name "DEFAULT_REMOTE_PORT") |};
    {| flags := ["-S"; "--su"]; dest := "su"; default := None |};
    {| flags := ["-s"; "--become"]; dest := "become"; default := None |};
    {| flags := ["-k"; "--ask-pass"]; dest := "ask_pass"; default := None |};
    {| flags := ["-K"; "--ask-become-pass"]; dest := "ask_become_pass"; default := None |};
    {| flags := ["-c"; "--colors"]; dest := "colors"; default := None |} ].

(** [AnsibleScript.add_default_arguments] *)
Definition AnsibleScript_default_arguments : list argument :=
  [ {| flags := ["-m"; "--module"]; dest := "module"; default := Some (Name "DEFAULT_MODULE_NAME") |};
    {| flags := ["-a"; "--args"]; dest := "args"; default := Some (Name "DEFAULT_MODULE_ARGS") |};
    {| flags := ["pattern"]; dest := "pattern"; default := Some (Name "DEFAULT_PATTERN") |} ].

(** [PlaybookScript.add_common_arguments] *)
Definition PlaybookScript_common_arguments : list argument :=
  [ {| flags := ["-i"; "--inventory"]; dest := "inventory"; default := Some (Name "DEFAULT_HOST_LIST") |};
    {| flags := ["-M"; "--module-path"]; dest := "module_path"; default := Some (Name "DEFAULT_MODULE_PATH") |};
    {| flags := ["-T"; "--timeout"]; dest := "timeout"; default := Some (Name "DEFAULT_TIMEOUT") |};
    {| flags := ["-u"; "--user"]; dest := "user"; default := Some (Name "active_user") |};
    {| flags := ["-U"; "--become-user"]; dest := "become_user"; default := Some (Name "DEFAULT_BECOME_USER") |};
    {| flags := ["--private-key"]; dest := "private_key"; default := Some (Name "DEFAULT_PRIVATE_KEY_FILE") |};
    {| flags := ["-f"; "--forks"]; dest := "forks"; default := Some (Name "DEFAULT_FORKS") |};
    {| flags := ["--port"]; dest := "port"; default := Some (Name "DEFAULT_REMOTE_PORT") |};
    {| flags := ["-S"; "--su"]; dest := "su"; default := None |};
    {| flags := ["-s"; "--become"]; dest := "become"; default := None |};
    {| flags := ["-k"; "--ask-pass"]; dest := "ask_pass"; default := None |};
    {| flags := ["-K"; "--ask-become-pass"]; dest := "ask_become_pass"; default := None |};
    {| flags := ["-a"; "--args"]; dest := "args"; default := Some (Name "DEFAULT_MODULE_ARGS") |};
    {| flags := ["-c"; "--colors"]; dest := "colors"; default := None |};
    {| flags := ["--show-facts"]; dest := "show_facts"; default := None |};
    {| flags := ["--vault-password-file"]; dest := "vault_password_file"; default := Some (Const VNone) |} ].

Definition playbook_argument : argument :=
  {| flags := ["playbook"]; dest := "playbook"; default := None |}.

(** [GenericAnsibleScript.__init__]: the fresh script and its parser. *)
Definition GenericAnsibleScript_init (w : World) : res (Script * list string) :=
  parser ← add_argument w [] version_argument;
  mret (new_script, parser).

(** [AnsibleScript.__init__] *)
Definition AnsibleScript_init (w : World) : res (Script * list string) :=
  '(self, parser) ← GenericAnsibleScript_init w;
  parser ← add_arguments w parser AnsibleScript_common_arguments;
  parser ← add_arguments w parser AnsibleScript_default_arguments;
  mret (self, parser).

(** [PlaybookScript.__init__] *)
Definition PlaybookScript_init (w : World) : res (Script * list string) :=
  '(self, parser) ← GenericAnsibleScript_init w;
  parser ← add_arguments w parser PlaybookScript_common_arguments;
  parser ← add_argument w parser playbook_argument;
  mret (self, parser).

(** The attributes each schema declares, whether or not its constructor
    gets to the end. *)
Definition AnsibleScript_dests : list string :=
  dest <$> version_argument :: AnsibleScript_common_arguments ++ AnsibleScript_default_arguments.

Definition PlaybookScript_dests : list string :=
  dest <$> version_argument :: PlaybookScript_common_arguments ++ [playbook_argument].

(** A namespace has exactly the attributes of a schema. *)
Definition declares (dests : list string) (ns : gmap string value) : Prop :=
  dom ns = list_to_set (C := gset string) dests.

(** ** The script as a whole *)

(** Modelled from the spec: the controller of section 4.5 (the entry scripts
    that instantiate the classes are not in src): parse and validate, run the
    adapter, on success exit 0, on [RunnerError] print the message and
    exit 1.  Exceptions of other types are not handled. *)
Definition controller (run : gmap string value → M value)
    (w : World) (ns : gmap string value) : M unit :=
  args ← parse_args w ns;
  (λ self,
     match run args self with
     | (self', t, Raise (RunnerError emsg)) =>
         match exit (A := value) 1 (Some emsg) self' with
         | (self'', t', r) => (self'', t ++ t', r)
         end
     | x => x
     end) ;;
  exit 0 None.

(** A process in ad-hoc mode: build the script, then hand the namespace
    argparse produced to the controller. *)
Definition adhoc_main (w : World) (ns : gmap string value) : list event * res unit :=
  match AnsibleScript_init w with
  | Ok (self, _) =>
      let x := controller (AnsibleScript_run w) w ns self in (trace_of x, result_of x)
  | Raise e => ([], Raise e)
  end.

(** A process in playbook mode. *)
Definition playbook_main (w : World) (ns : gmap string value) : list event * res unit :=
  match PlaybookScript_init w with
  | Ok (self, _) =>
      let x := controller (PlaybookScript_run w) w ns self in (trace_of x, result_of x)
  | Raise e => ([], Raise e)
  end.

(** ** Concrete worlds and namespaces *)

Module Sample.

(** An inventory with hosts a and b; a pattern selects the hosts it names,
    and the default pattern selects both. *)
Definition hosts_ab (inventory pattern : value) : res (list string) :=
  match pattern with
  | VList names => Ok (filter (λ h, h ∈ names) ["a"; "b"])
  | VStr "all" => Ok ["a"; "b"]
  | _ => Ok []
  end.

Definition constants (id : string) : value :=
  if String.eqb id "DEFAULT_FORKS" then VInt 5
  else if String.eqb id "DEFAULT_TIMEOUT" then VInt 10
  else if String.eqb id "DEFAULT_REMOTE_PORT" then VInt 22
  else if String.eqb id "DEFAULT_HOST_LIST" then VStr "/etc/ansible/hosts"
  else if String.eqb id "DEFAULT_BECOME_USER" then VStr "root"
  else if String.eqb id "DEFAULT_MODULE_NAME" then VStr "command"
  else if String.eqb id "DEFAULT_PATTERN" then VStr "all"
  else if String.eqb id "active_user" then VStr "ops"
  else VNone.

(** An engine whose calls return. *)
Definition world : World := {|
  ansible_reporter_version := "1.3";
  ansible_version := "1.9.4";
  constant := constants;
  list_hosts := hosts_ab;
  getpass := λ _, Ok "secret";
  read_vault_file := λ _, Ok (VStr "vault-secret");
  realpath := λ p, Ok p;
  runner_new := λ _ _, Ok tt;
  runner_run := λ _ _, Completes (Ok (VStr "report"));
|}.

(** The same world with an engine whose call is interrupted and which lets
    the exception raised by the handler through. *)
Definition interrupted_world : World := {|
  ansible_reporter_version := "1.3";
  ansible_version := "1.9.4";
  constant := constants;
  list_hosts := hosts_ab;
  getpass := λ _, Ok "secret";
  read_vault_file := λ _, Ok (VStr "vault-secret");
  realpath := λ p, Ok p;
  runner_new := λ _ _, Ok tt;
  runner_run := λ _ _, Interrupted Raise;
|}.

(** The same world with an engine whose call fails with an error that is
    not an [AnsibleError]. *)
Definition failing_world : World := {|
  ansible_reporter_version := "1.3";
  ansible_version := "1.9.4";
  constant := constants;
  list_hosts := hosts_ab;
  getpass := λ _, Ok "secret";
  read_vault_file := λ _, Ok (VStr "vault-secret");
  realpath := λ p, Ok p;
  runner_new := λ _ _, Ok tt;
  runner_run := λ _ _, Completes (Raise (OtherError "IOError" "Broken pipe"));
|}.

(** What argparse yields in playbook mode for the command line
    [-S -s site.yml]: both privilege toggles set, defaults elsewhere. *)
Definition playbook_ns : gmap string value :=
  list_to_map
    [("version", VBool false); ("inventory", VStr "/etc/ansible/hosts");
     ("module_path", VNone); ("timeout", VInt 10); ("user", VStr "ops");
     ("become_user", VStr "root"); ("private_key", VNone); ("forks", VInt 5);
     ("port", VInt 22); ("su", VBool true); ("become", VBool true);
     ("ask_pass", VBool false); ("ask_become_pass", VBool false);
     ("args", VStr ""); ("colors", VBool false); ("show_facts", VBool false);
     ("vault_password_file", VNone); ("playbook", VStr "site.yml")].

(** What argparse yields in ad-hoc mode for the command line [c]: the
    attributes of the ad-hoc schema, with the one pattern [c]. *)
Definition adhoc_ns : gmap string value :=
  list_to_map
    [("version", VBool false); ("inventory", VStr "/etc/ansible/hosts");
     ("module_path", VNone); ("timeout", VInt 10); ("user", VStr "ops");
     ("become_user", VStr "root"); ("private_key", VNone); ("forks", VInt 5);
     ("port", VInt 22); ("su", VBool false); ("become", VBool false);
     ("ask_pass", VBool false); ("ask_become_pass", VBool false);
     ("colors", VBool false); ("module", VStr "command"); ("args", VStr "");
     ("pattern", VList ["c"])].

(** [--version] on a command line that is otherwise invalid: no inventory
    can be detected. *)
Definition version_ns : gmap string value :=
  <["version" := VBool true]> (<["inventory" := VNone]> playbook_ns).

(** No inventory can be detected. *)
Definition no_inventory_ns : gmap string value :=
  <["inventory" := VNone]> playbook_ns.

(** Neither an inventory nor a playbook. *)
Definition no_playbook_no_inventory_ns : gmap string value :=
  <["playbook" := VNone]> (<["inventory" := VNone]> playbook_ns).

(** No playbook on the command line. *)
Definition no_playbook_ns : gmap string value :=
  <["playbook" := VNone]> playbook_ns.

(** [playbook_ns] as [parse_args] returns it. *)
Definition validated_playbook_ns : gmap string value :=
  <["vault_pass" := VBool false]>
    (<["become_pass" := VNone]> (<["remote_pass" := VNone]> playbook_ns)).

(** Ad-hoc mode with a pattern that matches host a. *)
Definition adhoc_matching_ns : gmap string value :=
  <["pattern" := VList ["a"]]> adhoc_ns.

(** Playbook mode for the command line [-S site.yml]: su without become. *)
Definition su_only_ns : gmap string value :=
  <["become" := VBool false]> playbook_ns.

(** The keyword arguments [PlaybookScript.run] builds from
    [validated_playbook_ns]. *)
Definition playbook_kwargs : kwargs :=
  [("playbook", VStr "site.yml"); ("host_list", VStr "/etc/ansible/hosts");
   ("module_path", VNone); ("forks", VStr "5"); ("timeout", VInt 10);
   ("remote_user", VStr "ops"); ("remote_pass", VNone); ("become_pass", VNone);
   ("remote_port", VInt 22); ("transport", VStr "smart");
   ("private_key_file", VNone); ("become", VBool true);
   ("become_user", VStr "root"); ("extra_vars", VNone); ("only_tags", VNone);
   ("skip_tags", VNone); ("subset", VNone); ("inventory", VNone);
   ("check", VBool false); ("diff", VBool false);
   ("any_errors_fatal", VBool false); ("vault_password", VBool false);
   ("force_handlers", VBool false); ("show_colors", VBool false);
   ("show_facts", VBool false)].

(** A script on which some caller has stored a runner. *)
Definition running_script : Script :=
  {| runner := Some (PlaybookRunner, []); mode := "" |}.

End Sample.

(** ** Predicates of the statements *)

(** A method is stateless when it leaves [self] as it found it. *)
Definition stateless {A} (m : M A) : Prop :=
  ∀ self, ∃ t r, m self = (self, t, r).

(** [respects P m]: running [m] leaves [self.runner] as it was, and every
    event of its trace satisfies [P], which may mention that [self.runner]. *)
Definition respects (P : option runner_obj → event → Prop) {A} (m : M A) : Prop :=
  ∀ self,
    runner (state_of (m self)) = runner self
    ∧ Forall (P (runner self)) (trace_of (m self)).

(** No call to the inventory. *)
Definition not_ListHosts (h : option runner_obj) (ev : event) : Prop :=
  ∀ inventory pattern, ev ≠ ListHosts inventory pattern.

(** The reading of C1 as it is written, at one input: a playbook-mode
    process with no playbook argument exits with "No playbook provided" and
    nothing before it. *)
Definition playbook_checked_first (w : World) (ns : gmap string value) : Prop :=
  playbook_main w ns = ([Exit 1 (Some "No playbook provided")], Raise (SystemExit 1)).

(** The values of [self.runner] seen by the calls of [runner.run()] in a
    trace. *)
Definition registered_during (t : list event) : list (option runner_obj) :=
  omap (λ ev, match ev with RunnerRun _ _ reg => Some reg | _ => None end) t.

(** Every [runner.run()] of the trace saw [h] in [self.runner]. *)
Definition snapshot_is (h : option runner_obj) (ev : event) : Prop :=
  ∀ cls kw reg, ev = RunnerRun cls kw reg → reg = h.

(** Interrupted during the engine call, the adapter ends with a
    [RunnerError]. *)
Definition interrupt_becomes_RunnerError
    (w : World) (cls : runner_class) (kw : kwargs) (self : Script) : Prop :=
  ∃ emsg, result_of (guarded_run w cls kw self) = Raise (RunnerError emsg).

(** The second half of C5 as it is written: nothing but a [RunnerError]
    leaves an adapter. *)
Definition only_RunnerError_escapes (r : res value) : Prop :=
  match r with
  | Ok _ => True
  | Raise (RunnerError _) => True
  | Raise _ => False
  end.

(** ** create_directory *)

(** The two exception classes [create_directory] handles. *)
Inductive env_class := IOError | OSError.

(** What [os.makedirs(directory)] does: it creates the directory, or raises
    an [IOError] or [OSError] with the given [args], or raises something
    else. *)
Inductive makedirs_outcome :=
| Created
| EnvironmentError (cls : env_class) (args : list value)
| MakedirsRaises (e : exn).

Record Filesystem := {
  (** [os.path.isdir(directory)] *)
  isdir : string → bool;
  (** [os.makedirs(directory)] *)
  makedirs : string → makedirs_outcome;
}.

(** Calls [create_directory] makes that have an effect. *)
Inductive fs_event :=
| Debug (text : string)
| Makedirs (directory : string).

(** The target [(ecode, emsg)] of the two [except] clauses: the exception is
    unpacked into exactly two values, as an assignment to a pair would. *)
Definition unpack_pair (args : list value) : res (value * value) :=
  match args with
  | [ecode; emsg] => Ok (ecode, emsg)
  | [] => Raise (OtherError "ValueError" "need more than 0 values to unpack")
  | [_] => Raise (OtherError "ValueError" "need more than 1 value to unpack")
  | _ => Raise (OtherError "ValueError" "too many values to unpack")
  end.

(** [create_directory] *)
Definition create_directory (fs : Filesystem) (directory : string)
  : list fs_event * res unit :=
  if isdir fs directory then
    ([Debug ("directory already exists: " +:+ directory)], Ok tt)
  else
    match makedirs fs directory with
    | Created => ([Makedirs directory], Ok tt)
    | EnvironmentError IOError args =>
        match unpack_pair args with
        | Ok (ecode, emsg) =>
            ([Makedirs directory],
             Raise (RunnerError
                      ("Error creating directory " +:+ directory +:+ ": " +:+ str emsg)))
        | Raise e => ([Makedirs directory], Raise e)
        end
    | EnvironmentError OSError args =>
        match unpack_pair args with
        | Ok (ecode, emsg) =>
            ([Makedirs directory],
             Raise (RunnerError
                      ("Error creating directory " +:+ directory +:+ ": " +:+ str emsg)))
        | Raise e => ([Makedirs directory], Raise e)
        end
    | MakedirsRaises e => ([Makedirs directory], Raise e)
    end.

(** ** More concrete worlds and namespaces *)

Module Cases.

(** A file system on which [/var/reports] exists, [/proc/reports] cannot be
    created and anything else can. *)
Definition disk : Filesystem := {|
  isdir := λ d, String.eqb d "/var/reports";
  makedirs := λ d,
    if String.eqb d "/proc/reports"
    then EnvironmentError OSError [VInt 13; VStr "Permission denied"]
    else Created;
|}.

(** [Sample.world] with a terminal that is closed: every prompt fails. *)
Definition no_terminal : World := {|
  ansible_reporter_version := "1.3";
  ansible_version := "1.9.4";
  constant := Sample.constants;
  list_hosts := Sample.hosts_ab;
  getpass := λ _, Raise (OtherError "EOFError" "");
  read_vault_file := λ _, Ok (VStr "vault-secret");
  realpath := λ p, Ok p;
  runner_new := λ _ _, Ok tt;
  runner_run := λ _ _, Completes (Ok (VStr "report"));
|}.

(** [Sample.world] with an inventory that cannot be read, a vault file that
    cannot be read, and runner classes whose constructor fails. *)
Definition broken : World := {|
  ansible_reporter_version := "1.3";
  ansible_version := "1.9.4";
  constant := Sample.constants;
  list_hosts := λ _ _, Raise (AnsibleError "Unable to find an inventory file");
  getpass := λ _, Ok "secret";
  read_vault_file := λ _, Raise (AnsibleError "Could not read vault file");
  realpath := λ p, Ok p;
  runner_new := λ _ _, Raise (AnsibleError "the playbook could not be found");
  runner_run := λ _ _, Completes (Ok (VStr "report"));
|}.

(** Playbook mode, command line [site.yml]: no flag set. *)
Definition plain_ns : gmap string value :=
  <["su" := VBool false]> (<["become" := VBool false]> Sample.playbook_ns).

(** Playbook mode, command line [-k -K site.yml]. *)
Definition ask_ns : gmap string value :=
  <["ask_pass" := VBool true]> (<["ask_become_pass" := VBool true]> plain_ns).

(** Playbook mode, command line [-s --vault-password-file vault.txt site.yml]. *)
Definition vault_ns : gmap string value :=
  <["vault_password_file" := VStr "vault.txt"]>
    (<["su" := VBool false]> Sample.playbook_ns).

(** Playbook mode, command line
    [-k -K -s --vault-password-file vault.txt site.yml]. *)
Definition ask_vault_ns : gmap string value :=
  <["ask_pass" := VBool true]> (<["ask_become_pass" := VBool true]> vault_ns).

(** [plain_ns] as [parse_args] returns it. *)
Definition validated_plain_ns : gmap string value :=
  <["vault_pass" := VBool false]>
    (<["become_pass" := VNone]> (<["remote_pass" := VNone]> plain_ns)).

(** A validated namespace whose forks attribute is not a number. *)
Definition no_forks_ns : gmap string value :=
  <["forks" := VNone]> validated_plain_ns.

(** The ad-hoc namespace of [Sample.adhoc_matching_ns] with the three
    attributes [parse_args] assigns, as [AnsibleScript.run] expects it. *)
Definition validated_adhoc_ns : gmap string value :=
  <["vault_pass" := VBool false]>
    (<["become_pass" := VNone]>
       (<["remote_pass" := VNone]>
          (<["su" := VBool true]> Sample.adhoc_matching_ns))).

(** Ad-hoc mode, command line [--version]. *)
Definition adhoc_version_ns : gmap string value :=
  <["version" := VBool true]> Sample.adhoc_ns.

(** Ad-hoc mode with no inventory that can be detected. *)
Definition adhoc_no_inventory_ns : gmap string value :=
  <["inventory" := VNone]> Sample.adhoc_ns.

(** The keyword arguments [AnsibleScript.run] builds from
    [validated_adhoc_ns]. *)
Definition adhoc_kwargs : kwargs :=
  [("host_list", VStr "/etc/ansible/hosts"); ("module_path", VNone);
   ("module_name", VStr "command"); ("module_args", VStr "");
   ("forks", VStr "5"); ("timeout", VInt 10); ("pattern", VList ["a"]);
   ("remote_user", VStr "ops"); ("remote_pass", VNone); ("remote_port", VInt 22);
   ("private_key_file", VNone); ("su", VBool true); ("become", VBool false);
   ("become_user", VStr "root"); ("become_pass", VNone);
   ("show_colors", VBool false)].

End Cases.

(** The events of [parse_args] before mode resolution: the version message,
    an exit, the inventory query and the prompts. *)
Definition early_event (h : option runner_obj) (ev : event) : Prop :=
  match ev with
  | Message _ | Exit _ _ | ListHosts _ _ | Getpass _ => True
  | _ => False
  end.

(** The statements of [parse_args] up to the passwords (lines 83-101), in
    source order: the three checks, then the two prompts.  [parse_args] is
    these followed by mode resolution and the vault step. *)
Definition checks_and_passwords (w : World) (args : gmap string value)
  : M (gmap string value) :=
  check_version w args ;;
  check_inventory args ;;
  check_pattern w args ;;
  args ← resolve_remote_pass w args;
  resolve_become_pass w args.

(** * Properties *)

(** ** The method monad *)

Lemma bind_run {A B} (m : M A) (f : A → M B) self :
  (m ≫= f) self =
    match m self with
    | (self', t, Ok a) =>
        match f a self' with
        | (self'', t', r) => (self'', t ++ t', r)
        end
    | (self', t, Raise e) => (self', t, Raise e)
    end.
Proof. reflexivity. Qed.

Lemma bind_silent {A B} (m : M A) (f : A → M B) self a :
  m self = (self, [], Ok a) → (m ≫= f) self = f a self.
Proof. intros H. rewrite bind_run, H. by destruct (f a self) as [[??]?]. Qed.

Lemma getattr_Some args name v self :
  args !! name = Some v → getattr args name self = (self, [], Ok v).
Proof. intros H. unfold getattr. by rewrite H. Qed.

Lemma getattr_None args name self :
  args !! name = None → getattr args name self = (self, [], Raise (AttributeError name)).
Proof. intros H. unfold getattr. by rewrite H. Qed.

Lemma when_false m self : when false m self = (self, [], Ok tt).
Proof. reflexivity. Qed.

Lemma exit_run {A} code msg self :
  exit (A := A) code msg self = (self, [Exit code msg], Raise (SystemExit code)).
Proof. reflexivity. Qed.

Ltac unfold_monad :=
  unfold when, external, exit, message, emit, lift, raise, assign_mode, getattr,
    setattr, mbind, M_bind, mret, M_ret in *.

Lemma stateless_ret {A} (a : A) : stateless (mret a).
Proof. intros self. by eexists _, _. Qed.

Lemma stateless_raise {A} e : stateless (raise (A := A) e).
Proof. intros self. by eexists _, _. Qed.

Lemma stateless_emit ev : stateless (emit ev).
Proof. intros self. by eexists _, _. Qed.

Lemma stateless_lift {A} (r : res A) : stateless (lift r).
Proof. intros self. by eexists _, _. Qed.

Lemma stateless_getattr args name : stateless (getattr args name).
Proof. intros self. unfold getattr. destruct (args !! name); by eexists _, _. Qed.

Lemma stateless_bind {A B} (m : M A) (f : A → M B) :
  stateless m → (∀ a, stateless (f a)) → stateless (m ≫= f).
Proof.
  intros Hm Hf self. rewrite bind_run.
  destruct (Hm self) as (t & [a|e] & ->); [|by eexists _, _].
  destruct (Hf a self) as (t' & r & ->). by eexists _, _.
Qed.

Lemma stateless_exit {A} code msg : stateless (exit (A := A) code msg).
Proof. intros self. by eexists _, _. Qed.

Lemma stateless_when b m : stateless m → stateless (when b m).
Proof. destruct b; [done|]. intros _. apply stateless_ret. Qed.

Lemma stateless_external {A} ev (r : res A) : stateless (external ev r).
Proof. intros self. destruct r; by eexists _, _. Qed.

Create HintDb stateless discriminated.
#[local] Hint Resolve stateless_ret stateless_raise stateless_emit stateless_lift
  stateless_getattr stateless_exit stateless_when stateless_external : stateless.

Ltac stateless :=
  repeat first
    [ apply stateless_bind; [|intros ?]
    | apply stateless_when
    | solve [eauto with stateless]
    | case_match ].

(** ** The checks of [parse_args], one by one *)

Lemma check_version_stateless w args : stateless (check_version w args).
Proof. unfold check_version, show_version, message. stateless. Qed.

Lemma check_inventory_stateless args : stateless (check_inventory args).
Proof. unfold check_inventory. stateless. Qed.

Lemma check_pattern_stateless w args : stateless (check_pattern w args).
Proof. unfold check_pattern. stateless. Qed.

Lemma resolve_vault_stateless w args : stateless (resolve_vault w args).
Proof. unfold resolve_vault. stateless. Qed.

Lemma check_version_set w args self v :
  args !! "version" = Some v → truthy v = true →
  check_version w args self =
    (self,
     [Message (ansible_reporter_version w +:+ " (ansible " +:+ ansible_version w +:+ ")");
      Exit 0 None],
     Raise (SystemExit 0)).
Proof.
  intros Hv Ht. unfold check_version. rewrite bind_run, (getattr_Some _ _ v) by done.
  by rewrite Ht.
Qed.

Lemma check_version_unset w args self v :
  args !! "version" = Some v → truthy v = false →
  check_version w args self = (self, [], Ok tt).
Proof.
  intros Hv Ht. unfold check_version. rewrite bind_run, (getattr_Some _ _ v) by done.
  by rewrite Ht.
Qed.

Lemma check_inventory_unset args self :
  args !! "inventory" = Some VNone →
  check_inventory args self =
    (self, [Exit 1 (Some "Could not detect default inventory path")], Raise (SystemExit 1)).
Proof.
  intros Hi. unfold check_inventory. by rewrite bind_run, (getattr_Some _ _ VNone).
Qed.

Lemma check_inventory_set args self inventory :
  args !! "inventory" = Some inventory → is_none inventory = false →
  check_inventory args self = (self, [], Ok tt).
Proof.
  intros Hi Hn. unfold check_inventory. rewrite bind_run, (getattr_Some _ _ inventory) by done.
  by rewrite Hn.
Qed.

Lemma check_pattern_absent w args self :
  args !! "pattern" = None → check_pattern w args self = (self, [], Ok tt).
Proof. intros Hp. unfold check_pattern. by rewrite Hp. Qed.

Lemma check_pattern_hosts w args self inventory pattern hosts :
  args !! "inventory" = Some inventory → args !! "pattern" = Some pattern →
  list_hosts w inventory pattern = Ok hosts →
  check_pattern w args self =
    if bool_decide (hosts = []) then
      (self, [ListHosts inventory pattern; Exit 1 (Some "No hosts matched")],
       Raise (SystemExit 1))
    else (self, [ListHosts inventory pattern], Ok tt).
Proof.
  intros Hi Hp Hl. unfold check_pattern. rewrite Hp.
  unfold_monad. rewrite Hi, Hp, Hl. simpl. by case_bool_decide.
Qed.

(** What the password steps return: the namespace with one more attribute,
    which is [None] when the flag is not set. *)
Lemma resolve_remote_pass_run w args self :
  ∃ t r, resolve_remote_pass w args self = (self, t, r) ∧
    ∀ args', r = Ok args' →
      ∃ p, args' = <["remote_pass" := p]> args ∧
        (∀ v, args !! "ask_pass" = Some v → truthy v = false → p = VNone ∧ t = []).
Proof.
  unfold resolve_remote_pass. unfold_monad.
  destruct (args !! "ask_pass") as [v|] eqn:Hv; [|by eexists _, _].
  destruct (truthy v) eqn:Ht.
  - destruct (getpass w _) as [p|e]; eexists _, _; (split; [done|]); intros ? [=<-].
    eexists; split; [done|]. intros ? [=<-]. congruence.
  - eexists _, _; split; [done|]. intros ? [=<-]. by eexists.
Qed.

Lemma resolve_become_pass_run w args self :
  ∃ t r, resolve_become_pass w args self = (self, t, r) ∧
    ∀ args', r = Ok args' →
      ∃ p, args' = <["become_pass" := p]> args ∧
        (∀ v, args !! "ask_become_pass" = Some v → truthy v = false → p = VNone ∧ t = []).
Proof.
  unfold resolve_become_pass. unfold_monad.
  destruct (args !! "ask_become_pass") as [v|] eqn:Hv; [|by eexists _, _].
  destruct (truthy v) eqn:Ht.
  - destruct (getpass w _) as [p|e]; eexists _, _; (split; [done|]); intros ? [=<-].
    eexists; split; [done|]. intros ? [=<-]. congruence.
  - eexists _, _; split; [done|]. intros ? [=<-]. by eexists.
Qed.

Lemma resolve_vault_run w args self :
  ∃ t r, resolve_vault w args self = (self, t, r) ∧
    ∀ args', r = Ok args' →
      ∃ secret, args' = <["vault_pass" := secret]> args ∧
        (∀ v, args !! "vault_password_file" = Some v → truthy v = false →
              secret = VBool false ∧ t = []).
Proof.
  unfold resolve_vault. unfold_monad.
  destruct (args !! "vault_password_file") as [v|] eqn:Hv; [|by eexists _, _].
  destruct (truthy v) eqn:Ht.
  - destruct (read_vault_file w _) as [p|e]; eexists _, _; (split; [done|]); intros ? [=<-].
    eexists; split; [done|]. intros ? [=<-]. congruence.
  - eexists _, _; split; [done|]. intros ? [=<-]. by eexists.
Qed.

Lemma resolve_vault_undeclared w args self :
  args !! "vault_password_file" = None →
  resolve_vault w args self = (self, [], Raise (AttributeError "vault_password_file")).
Proof. intros H. unfold resolve_vault. by rewrite bind_run, getattr_None. Qed.

(** Mode resolution never touches the trace; its outcomes, by case. *)
Lemma resolve_mode_become args self b u :
  args !! "become" = Some b → truthy b = true → args !! "become_user" = Some u →
  resolve_mode args self = (set_mode ("become " +:+ str u +:+ " ") self, [], Ok tt).
Proof.
  intros Hb Ht Hu. unfold resolve_mode.
  rewrite bind_run, (getattr_Some _ _ b) by done. rewrite Ht.
  by rewrite bind_run, (getattr_Some _ _ u).
Qed.

Lemma resolve_mode_su_undeclared args self b s :
  args !! "become" = Some b → truthy b = false →
  args !! "su" = Some s → truthy s = true → args !! "su_user" = None →
  resolve_mode args self = (self, [], Raise (AttributeError "su_user")).
Proof.
  intros Hb Ht Hs Hts Hu. unfold resolve_mode.
  rewrite bind_run, (getattr_Some _ _ b) by done. rewrite Ht.
  rewrite bind_run, (getattr_Some _ _ s) by done. rewrite Hts.
  by rewrite bind_run, getattr_None.
Qed.

Lemma resolve_mode_none args self b s :
  args !! "become" = Some b → truthy b = false →
  args !! "su" = Some s → truthy s = false →
  resolve_mode args self = (self, [], Ok tt).
Proof.
  intros Hb Ht Hs Hts. unfold resolve_mode.
  rewrite bind_run, (getattr_Some _ _ b) by done. rewrite Ht.
  rewrite bind_run, (getattr_Some _ _ s) by done. by rewrite Hts.
Qed.

Lemma resolve_mode_run args self :
  ∃ self' r, resolve_mode args self = (self', [], r) ∧ runner self' = runner self.
Proof.
  unfold resolve_mode. unfold_monad.
  destruct (args !! "become") as [b|]; [|by eexists _, _].
  destruct (truthy b).
  { destruct (args !! "become_user"); by eexists _, _. }
  destruct (args !! "su") as [s|]; [|by eexists _, _].
  destruct (truthy s); [|by eexists _, _].
  destruct (args !! "su_user"); by eexists _, _.
Qed.

(** ** The shape of [parse_args]

    Either a check or a prompt stops it, with [self] untouched, or it
    reaches mode resolution with the namespace extended by the two
    passwords, and ends with the vault step. *)
Lemma parse_args_spine w args self :
  (∃ t e, parse_args w args self = (self, t, Raise e))
  ∨ (∃ t1 rp bp,
       (∀ v, args !! "ask_pass" = Some v → truthy v = false → rp = VNone) ∧
       (∀ v, args !! "ask_become_pass" = Some v → truthy v = false → bp = VNone) ∧
       parse_args w args self =
         match (resolve_mode (<["become_pass" := bp]> (<["remote_pass" := rp]> args)) ;;
                resolve_vault w (<["become_pass" := bp]> (<["remote_pass" := rp]> args))) self with
         | (self', t, r) => (self', t1 ++ t, r)
         end).
Proof.
  unfold parse_args.
  rewrite bind_run.
  destruct (check_version_stateless w args self) as (t0 & [[]|e] & ->); [|left; by eexists _, _].
  rewrite bind_run.
  destruct (check_inventory_stateless args self) as (t1 & [[]|e] & ->).
  2:{ left. by eexists _, _. }
  rewrite bind_run.
  destruct (check_pattern_stateless w args self) as (t2 & [[]|e] & ->).
  2:{ left. by eexists _, _. }
  rewrite bind_run.
  destruct (resolve_remote_pass_run w args self) as (t3 & [a1|e] & -> & H1).
  2:{ left. by eexists _, _. }
  destruct (H1 a1 eq_refl) as (rp & -> & Hrp).
  rewrite bind_run.
  destruct (resolve_become_pass_run w (<["remote_pass" := rp]> args) self)
    as (t4 & [a2|e] & -> & H2).
  2:{ left. by eexists _, _. }
  destruct (H2 a2 eq_refl) as (bp & -> & Hbp).
  right. exists (t0 ++ t1 ++ t2 ++ t3 ++ t4), rp, bp. split_and!.
  - intros v Hv Ht. by destruct (Hrp v Hv Ht).
  - intros v Hv Ht. apply (Hbp v); [|done]. by rewrite lookup_insert_ne.
  - destruct ((resolve_mode _ ;; resolve_vault w _) self) as [[s t] r].
    by rewrite !app_assoc.
Qed.

(** ** The controller *)

Lemma controller_parse_Raise run w ns self self' t e :
  parse_args w ns self = (self', t, Raise e) →
  controller run w ns self = (self', t, Raise e).
Proof. intros H. unfold controller. by rewrite bind_run, H. Qed.

Lemma controller_parse_Ok run w ns self self' t args self'' t' r :
  parse_args w ns self = (self', t, Ok args) →
  run args self' = (self'', t', r) →
  controller run w ns self =
    match r with
    | Ok _ => (self'', t ++ t' ++ [Exit 0 None], Raise (SystemExit 0))
    | Raise (RunnerError emsg) =>
        (self'', t ++ t' ++ [Exit 1 (Some emsg)], Raise (SystemExit 1))
    | Raise e => (self'', t ++ t', Raise e)
    end.
Proof.
  intros Hp Hr. unfold controller. rewrite bind_run, Hp, bind_run, Hr.
  destruct r as [a|[]]; by rewrite ?exit_run, ?app_nil_r.
Qed.

Lemma PlaybookScript_init_ok w :
  PlaybookScript_init w = Ok (new_script, PlaybookScript_dests).
Proof. vm_compute. reflexivity. Qed.

Lemma playbook_main_controller w ns :
  playbook_main w ns =
    (trace_of (controller (PlaybookScript_run w) w ns new_script),
     result_of (controller (PlaybookScript_run w) w ns new_script)).
Proof. unfold playbook_main. by rewrite PlaybookScript_init_ok. Qed.

Lemma adhoc_main_NameError w ns :
  adhoc_main w ns = ([], Raise (NameError "DEFAULT_become_USER")).
Proof.
  assert (AnsibleScript_init w = Raise (NameError "DEFAULT_become_USER")) as Hinit.
  { vm_compute. reflexivity. }
  unfold adhoc_main. by rewrite Hinit.
Qed.

Lemma declares_undeclared dests ns k :
  declares dests ns → k ∉ dests → ns !! k = None.
Proof.
  unfold declares. intros Hd Hk. apply not_elem_of_dom. rewrite Hd.
  by rewrite elem_of_list_to_set.
Qed.

Lemma declares_declared dests ns k :
  declares dests ns → k ∈ dests → is_Some (ns !! k).
Proof.
  unfold declares. intros Hd Hk. apply elem_of_dom. rewrite Hd.
  by rewrite elem_of_list_to_set.
Qed.

Lemma playbook_ns_declared : declares PlaybookScript_dests Sample.playbook_ns.
Proof. unfold declares. apply (bool_decide_unpack _). by vm_compute. Qed.

Lemma adhoc_ns_declared : declares AnsibleScript_dests Sample.adhoc_ns.
Proof. unfold declares. apply (bool_decide_unpack _). by vm_compute. Qed.

Lemma adhoc_matching_ns_declared :
  declares AnsibleScript_dests Sample.adhoc_matching_ns.
Proof. unfold declares. apply (bool_decide_unpack _). by vm_compute. Qed.

(** ** Trace invariants *)

Section respects.
Context (P : option runner_obj → event → Prop).

Lemma respects_ret {A} (a : A) : respects P (mret a).
Proof. intros self. by split; [|constructor]. Qed.

Lemma respects_raise {A} e : respects P (raise (A := A) e).
Proof. intros self. by split; [|constructor]. Qed.

Lemma respects_lift {A} (r : res A) : respects P (lift r).
Proof. intros self. by split; [|constructor]. Qed.

Lemma respects_getattr args name : respects P (getattr args name).
Proof.
  intros self. unfold getattr. destruct (args !! name); by split; [|constructor].
Qed.

Lemma respects_emit ev : (∀ h, P h ev) → respects P (emit ev).
Proof. intros H self. split; [done|]. by repeat constructor. Qed.

Lemma respects_assign_mode m : respects P (assign_mode m).
Proof. intros self. by split; [|constructor]. Qed.

Lemma respects_bind {A B} (m : M A) (f : A → M B) :
  respects P m → (∀ a, respects P (f a)) → respects P (m ≫= f).
Proof.
  intros Hm Hf self. rewrite bind_run.
  destruct (Hm self) as [Hr Ht]. destruct (m self) as [[s t] [a|e]]; [|done].
  destruct (Hf a s) as [Hr' Ht']. destruct (f a s) as [[s' t'] r].
  unfold state_of, trace_of in *; simpl in *. split; [congruence|].
  apply Forall_app. split; [done|]. by rewrite <-Hr.
Qed.

Lemma respects_when b m : respects P m → respects P (when b m).
Proof. destruct b; [done|]. intros _. apply respects_ret. Qed.

Lemma respects_exit {A} code msg :
  (∀ h, P h (Exit code msg)) → respects P (exit (A := A) code msg).
Proof.
  intros H. unfold exit. apply respects_bind; [by apply respects_emit|].
  intros _. apply respects_raise.
Qed.

Lemma respects_external {A} ev (r : res A) :
  (∀ h, P h ev) → respects P (external ev r).
Proof.
  intros H. unfold external. apply respects_bind; [by apply respects_emit|].
  intros _. apply respects_lift.
Qed.

Lemma respects_pointwise {A} (m m' : M A) :
  (∀ self, m self = m' self) → respects P m' → respects P m.
Proof. intros Heq H self. rewrite Heq. apply H. Qed.
End respects.

Ltac respects :=
  repeat first
    [ apply respects_bind; [|intros ?]
    | apply respects_when
    | apply respects_ret
    | apply respects_raise
    | apply respects_lift
    | apply respects_getattr
    | apply respects_assign_mode
    | apply respects_exit; solve [intros; simpl; congruence]
    | apply respects_external; solve [intros; simpl; congruence]
    | apply respects_emit; solve [intros; simpl; congruence]
    | case_match ].

Lemma parse_args_skips_pattern w args :
  args !! "pattern" = None → respects not_ListHosts (parse_args w args).
Proof.
  intros Hp. unfold parse_args.
  apply respects_bind.
  { unfold check_version, show_version, message, not_ListHosts. respects. }
  intros _. apply respects_bind.
  { unfold check_inventory, not_ListHosts. respects. }
  intros _. apply respects_bind.
  { apply (respects_pointwise _ _ (mret tt)); [|apply respects_ret].
    intros self. by apply check_pattern_absent. }
  intros _.
  unfold resolve_remote_pass, resolve_become_pass, resolve_mode, resolve_vault,
    not_ListHosts.
  respects.
Qed.

(** ** The version flag *)

(** C7. With the version flag set, [parse_args] prints
    "<tool version> (ansible <engine version>)" and exits with code 0 before
    any other check: for every namespace, whatever the other attributes
    hold, the trace is the message and the exit, and nothing else; the
    controller then never calls the adapter, and a playbook-mode process ends
    that way.  An ad-hoc process does not: its constructor raises
    [NameError] before [parse_args] is called, so nothing is printed and the
    process does not exit with code 0. *)
Theorem version_flag_short_circuits w args self v :
  args !! "version" = Some v → truthy v = true →
  parse_args w args self =
    (self,
     [Message (ansible_reporter_version w +:+ " (ansible " +:+ ansible_version w +:+ ")");
      Exit 0 None],
     Raise (SystemExit 0))
  ∧ (∀ run, controller run w args self =
       (self,
        [Message (ansible_reporter_version w +:+ " (ansible " +:+ ansible_version w +:+ ")");
         Exit 0 None],
        Raise (SystemExit 0)))
  ∧ playbook_main w args =
      ([Message (ansible_reporter_version w +:+ " (ansible " +:+ ansible_version w +:+ ")");
        Exit 0 None],
       Raise (SystemExit 0))
  ∧ adhoc_main w args = ([], Raise (NameError "DEFAULT_become_USER")).
Proof.
  intros Hv Ht.
  assert (∀ self, parse_args w args self =
    (self,
     [Message (ansible_reporter_version w +:+ " (ansible " +:+ ansible_version w +:+ ")");
      Exit 0 None],
     Raise (SystemExit 0))) as Hparse.
  { intros s. unfold parse_args. by rewrite bind_run, (check_version_set w args s v). }
  split_and!; [done| | |].
  - intros run. by apply controller_parse_Raise.
  - rewrite playbook_main_controller.
    by rewrite (controller_parse_Raise _ _ _ _ _ _ _ (Hparse new_script)).
  - apply adhoc_main_NameError.
Qed.

Lemma version_flag_short_circuits_witness :
  playbook_main Sample.world Sample.version_ns =
    ([Message "1.3 (ansible 1.9.4)"; Exit 0 None], Raise (SystemExit 0))
  ∧ parse_args Sample.world Cases.adhoc_version_ns new_script =
    (new_script, [Message "1.3 (ansible 1.9.4)"; Exit 0 None], Raise (SystemExit 0))
  ∧ adhoc_main Sample.world Cases.adhoc_version_ns =
    ([], Raise (NameError "DEFAULT_become_USER")).
Proof.
  pose proof (version_flag_short_circuits Sample.world Sample.version_ns new_script
                (VBool true) eq_refl eq_refl) as (_ & _ & H1 & _).
  pose proof (version_flag_short_circuits Sample.world Cases.adhoc_version_ns new_script
                (VBool true) eq_refl eq_refl) as (H2 & _ & _ & H3).
  exact (conj H1 (conj H2 H3)).
Defined.

(** ** The inventory check *)

(** C8. Without the version flag and with no inventory path
    ([args.inventory is None]), [parse_args] exits with code 1 and the
    message "Could not detect default inventory path"; the trace holds that
    exit alone: no host listing, no prompt, no vault read; the controller
    does not reach the adapter, so no engine call is made, and a
    playbook-mode process ends that way.  An ad-hoc process does not print
    the message: its constructor raises [NameError] before [parse_args] is
    called. *)
Theorem missing_inventory_exits w args self v :
  args !! "version" = Some v → truthy v = false →
  args !! "inventory" = Some VNone →
  parse_args w args self =
    (self, [Exit 1 (Some "Could not detect default inventory path")], Raise (SystemExit 1))
  ∧ (∀ run, controller run w args self =
       (self, [Exit 1 (Some "Could not detect default inventory path")],
        Raise (SystemExit 1)))
  ∧ playbook_main w args =
      ([Exit 1 (Some "Could not detect default inventory path")], Raise (SystemExit 1))
  ∧ adhoc_main w args = ([], Raise (NameError "DEFAULT_become_USER")).
Proof.
  intros Hv Ht Hi.
  assert (∀ self, parse_args w args self =
    (self, [Exit 1 (Some "Could not detect default inventory path")],
     Raise (SystemExit 1))) as Hparse.
  { intros s. unfold parse_args.
    rewrite bind_run, (check_version_unset w args s v) by done.
    by rewrite bind_run, check_inventory_unset. }
  split_and!; [done| | |].
  - intros run. by apply controller_parse_Raise.
  - rewrite playbook_main_controller.
    by rewrite (controller_parse_Raise _ _ _ _ _ _ _ (Hparse new_script)).
  - apply adhoc_main_NameError.
Qed.

Lemma missing_inventory_exits_witness :
  playbook_main Sample.world Sample.no_inventory_ns =
    ([Exit 1 (Some "Could not detect default inventory path")], Raise (SystemExit 1))
  ∧ parse_args Sample.world Cases.adhoc_no_inventory_ns new_script =
    (new_script, [Exit 1 (Some "Could not detect default inventory path")],
     Raise (SystemExit 1))
  ∧ adhoc_main Sample.world Cases.adhoc_no_inventory_ns =
    ([], Raise (NameError "DEFAULT_become_USER")).
Proof.
  pose proof (missing_inventory_exits Sample.world Sample.no_inventory_ns new_script
                (VBool false) eq_refl eq_refl eq_refl) as (_ & _ & H1 & _).
  pose proof (missing_inventory_exits Sample.world Cases.adhoc_no_inventory_ns
                new_script (VBool false) eq_refl eq_refl eq_refl) as (H2 & _ & _ & H3).
  exact (conj H1 (conj H2 H3)).
Defined.

(** ** The host pattern check *)

(** C9. When the namespace has a pattern (the ad-hoc schema declares one)
    and the inventory lists no host for it, [parse_args] exits with code 1
    and the message "No hosts matched", and the controller never calls the
    adapter, hence never the engine.  A namespace of the playbook schema has
    no pattern attribute: the check returns at once and no run of
    [parse_args] on it queries the inventory.  An ad-hoc process, the only
    one whose namespace has a pattern, never gets to the check: its
    constructor raises [NameError], the inventory is not queried and the
    message is not printed. *)
Theorem unmatched_pattern_exits w args self v inventory pattern :
  args !! "version" = Some v → truthy v = false →
  args !! "inventory" = Some inventory → is_none inventory = false →
  args !! "pattern" = Some pattern →
  list_hosts w inventory pattern = Ok [] →
  parse_args w args self =
    (self, [ListHosts inventory pattern; Exit 1 (Some "No hosts matched")],
     Raise (SystemExit 1))
  ∧ (∀ run, controller run w args self =
       (self, [ListHosts inventory pattern; Exit 1 (Some "No hosts matched")],
        Raise (SystemExit 1)))
  ∧ (∀ args' self', declares PlaybookScript_dests args' →
       check_pattern w args' self' = (self', [], Ok tt)
       ∧ ∀ i p, ListHosts i p ∉ trace_of (parse_args w args' self'))
  ∧ adhoc_main w args = ([], Raise (NameError "DEFAULT_become_USER")).
Proof.
  intros Hv Ht Hi Hn Hp Hl.
  assert (parse_args w args self =
    (self, [ListHosts inventory pattern; Exit 1 (Some "No hosts matched")],
     Raise (SystemExit 1))) as Hparse.
  { unfold parse_args.
    rewrite bind_run, (check_version_unset w args self v) by done.
    rewrite bind_run, (check_inventory_set args self inventory) by done.
    by rewrite bind_run, (check_pattern_hosts w args self inventory pattern []). }
  split_and!; [done| | |].
  - intros run. by apply controller_parse_Raise.
  - intros args' self' Hd.
    assert (args' !! "pattern" = None) as Hp'.
    { apply (declares_undeclared _ _ _ Hd). by apply (bool_decide_unpack _). }
    split; [by apply check_pattern_absent|].
    intros i p Hin.
    destruct (parse_args_skips_pattern w args' Hp' self') as [_ Hall].
    rewrite Forall_forall in Hall. by apply (Hall _ Hin i p).
  - apply adhoc_main_NameError.
Qed.

Lemma unmatched_pattern_exits_witness :
  parse_args Sample.world Sample.adhoc_ns new_script =
    (new_script,
     [ListHosts (VStr "/etc/ansible/hosts") (VList ["c"]);
      Exit 1 (Some "No hosts matched")],
     Raise (SystemExit 1))
  ∧ check_pattern Sample.world Sample.playbook_ns new_script = (new_script, [], Ok tt)
  ∧ adhoc_main Sample.world Sample.adhoc_ns =
    ([], Raise (NameError "DEFAULT_become_USER")).
Proof.
  pose proof (unmatched_pattern_exits Sample.world Sample.adhoc_ns new_script
                (VBool false) (VStr "/etc/ansible/hosts") (VList ["c"])
                eq_refl eq_refl eq_refl eq_refl eq_refl eq_refl) as (H1 & _ & H2 & H3).
  exact (conj H1 (conj (proj1 (H2 Sample.playbook_ns new_script playbook_ns_declared)) H3)).
Defined.

(** ** What [parse_args] returns *)

Lemma parse_args_Ok_inv w args self self' t args' :
  parse_args w args self = (self', t, Ok args') →
  ∃ rp bp vp,
    args' = <["vault_pass" := vp]> (<["become_pass" := bp]> (<["remote_pass" := rp]> args))
    ∧ (∀ v, args !! "ask_pass" = Some v → truthy v = false → rp = VNone)
    ∧ (∀ v, args !! "ask_become_pass" = Some v → truthy v = false → bp = VNone)
    ∧ (∀ v, args !! "vault_password_file" = Some v → truthy v = false → vp = VBool false)
    ∧ resolve_mode (<["become_pass" := bp]> (<["remote_pass" := rp]> args)) self
      = (self', [], Ok tt).
Proof.
  intros Hparse.
  destruct (parse_args_spine w args self) as [(t0 & e & H)|(t1 & rp & bp & Hrp & Hbp & H)];
    [congruence|].
  rewrite H, bind_run in Hparse. clear H.
  destruct (resolve_mode_run (<["become_pass" := bp]> (<["remote_pass" := rp]> args)) self)
    as (s1 & [[]|e] & Hm & _); rewrite Hm in Hparse; [|done].
  destruct (resolve_vault_run w (<["become_pass" := bp]> (<["remote_pass" := rp]> args)) s1)
    as (t2 & r & Hv & Hr).
  rewrite Hv in Hparse. simplify_eq.
  destruct (Hr args' eq_refl) as (vp & -> & Hvp).
  exists rp, bp, vp. split_and!; try done.
  intros v Hv' Ht. apply (Hvp v); [|done]. by rewrite !lookup_insert_ne.
Qed.

(** The attributes [parse_args] does not assign are returned unchanged. *)
Lemma parse_args_keeps w args self self' t args' k :
  parse_args w args self = (self', t, Ok args') →
  k ≠ "remote_pass" → k ≠ "become_pass" → k ≠ "vault_pass" →
  args' !! k = args !! k.
Proof.
  intros (rp & bp & vp & -> & _)%parse_args_Ok_inv ? ? ?.
  by rewrite !lookup_insert_ne.
Qed.

(** With no ask flag and no vault file, the passwords returned are [None]
    and the vault secret is [False]. *)
Lemma parse_args_credentials w args self self' t args' ask_pass ask_become_pass vault_file :
  args !! "ask_pass" = Some ask_pass → truthy ask_pass = false →
  args !! "ask_become_pass" = Some ask_become_pass → truthy ask_become_pass = false →
  args !! "vault_password_file" = Some vault_file → truthy vault_file = false →
  parse_args w args self = (self', t, Ok args') →
  args' !! "remote_pass" = Some VNone
  ∧ args' !! "become_pass" = Some VNone
  ∧ args' !! "vault_pass" = Some (VBool false).
Proof.
  intros Ha Hta Hb Htb Hv Htv (rp & bp & vp & -> & Hrp & Hbp & Hvp & _)%parse_args_Ok_inv.
  rewrite (Hrp _ Ha Hta), (Hbp _ Hb Htb), (Hvp _ Hv Htv).
  split_and!; by simplify_map_eq.
Qed.

(** In playbook mode such a run does return. *)
Lemma parse_args_playbook_sample :
  parse_args Sample.world Sample.playbook_ns new_script =
    (set_mode "become root " new_script, [], Ok Sample.validated_playbook_ns).
Proof.
  vm_cast_no_check
    (eq_refl (set_mode "become root " new_script, @nil event,
              Ok Sample.validated_playbook_ns)).
Qed.

(** ** Privilege mode *)

(** C6. With both the become and the su toggles set, mode resolution takes
    the become branch: [self.mode] becomes "become <user> " with the become
    user, whatever the su toggle holds.  A run of [parse_args] either stops
    before resolution, leaving [self] untouched, or ends with that mode; in
    particular whenever it returns, the mode is the become prefix, never an
    su prefix. *)
Theorem become_takes_priority w args self b s u :
  args !! "become" = Some b → truthy b = true →
  args !! "su" = Some s → truthy s = true →
  args !! "become_user" = Some u →
  resolve_mode args self = (set_mode ("become " +:+ str u +:+ " ") self, [], Ok tt)
  ∧ (state_of (parse_args w args self) = self
     ∨ state_of (parse_args w args self) = set_mode ("become " +:+ str u +:+ " ") self)
  ∧ (∀ self' t args', parse_args w args self = (self', t, Ok args') →
       self' = set_mode ("become " +:+ str u +:+ " ") self).
Proof.
  intros Hb Htb Hs Hts Hu.
  assert (∀ rp bp,
    resolve_mode (<["become_pass" := bp]> (<["remote_pass" := rp]> args)) self
    = (set_mode ("become " +:+ str u +:+ " ") self, [], Ok tt)) as Hmode.
  { intros rp bp. apply (resolve_mode_become _ _ b); by rewrite ?lookup_insert_ne. }
  split_and!.
  - by apply (resolve_mode_become _ _ b).
  - destruct (parse_args_spine w args self) as [(t0 & e & H)|(t1 & rp & bp & _ & _ & H)].
    { left. by rewrite H. }
    right. rewrite H, bind_run, Hmode.
    destruct (resolve_vault_stateless w
                (<["become_pass" := bp]> (<["remote_pass" := rp]> args))
                (set_mode ("become " +:+ str u +:+ " ") self)) as (t2 & r & ->).
    done.
  - intros self' t args' (rp & bp & vp & _ & _ & _ & _ & Hm)%parse_args_Ok_inv.
    rewrite Hmode in Hm. congruence.
Qed.

Lemma become_takes_priority_witness :
  resolve_mode Sample.playbook_ns new_script =
    ({| runner := None; mode := "become root " |}, [], Ok tt)
  ∧ (state_of (parse_args Sample.world Sample.playbook_ns new_script) = new_script
     ∨ state_of (parse_args Sample.world Sample.playbook_ns new_script)
       = {| runner := None; mode := "become root " |}).
Proof.
  pose proof (become_takes_priority Sample.world Sample.playbook_ns new_script
                (VBool true) (VBool true) (VStr "root")
                eq_refl eq_refl eq_refl eq_refl eq_refl) as (H1 & H2 & _).
  exact (conj H1 H2).
Defined.

(** ** Credentials and the vault secret *)

(** C10. A namespace of the ad-hoc schema has no [vault_password_file]
    attribute, and [parse_args] reads it without a guard: on such a
    namespace [parse_args] never returns, so no vault secret (and no
    validated namespace at all) is produced.  At the sample command line the
    run passes the three checks and ends in [AttributeError].  In playbook
    mode the same holds for [su_user] when su is set without become. *)
Theorem adhoc_vault_attribute_missing w args self :
  declares AnsibleScript_dests args →
  (∀ args', result_of (parse_args w args self) ≠ Ok args')
  ∧ parse_args Sample.world Sample.adhoc_matching_ns new_script =
      (new_script, [ListHosts (VStr "/etc/ansible/hosts") (VList ["a"])],
       Raise (AttributeError "vault_password_file"))
  ∧ parse_args Sample.world Sample.su_only_ns new_script =
      (new_script, [], Raise (AttributeError "su_user")).
Proof.
  intros Hd. split_and!; [|by vm_compute..].
  assert (args !! "vault_password_file" = None) as Hv.
  { apply (declares_undeclared _ _ _ Hd). by apply (bool_decide_unpack _). }
  intros args' Hr.
  destruct (parse_args_spine w args self) as [(t0 & e & H)|(t1 & rp & bp & _ & _ & H)];
    rewrite H in Hr; [done|].
  rewrite bind_run in Hr.
  destruct (resolve_mode_run (<["become_pass" := bp]> (<["remote_pass" := rp]> args)) self)
    as (s1 & [[]|e] & Hm & _); rewrite Hm in Hr; [|done].
  rewrite resolve_vault_undeclared in Hr by (by rewrite !lookup_insert_ne). done.
Qed.

Lemma adhoc_vault_attribute_missing_witness :
  result_of (parse_args Sample.world Sample.adhoc_matching_ns new_script)
    ≠ Ok Sample.adhoc_matching_ns
  ∧ parse_args Sample.world Sample.adhoc_matching_ns new_script =
      (new_script, [ListHosts (VStr "/etc/ansible/hosts") (VList ["a"])],
       Raise (AttributeError "vault_password_file")).
Proof.
  pose proof (adhoc_vault_attribute_missing Sample.world Sample.adhoc_matching_ns
                new_script adhoc_matching_ns_declared) as (H1 & H2 & _).
  exact (conj (H1 Sample.adhoc_matching_ns) H2).
Defined.

(** ** The playbook check *)

(** C1, as stated, fails: with neither an inventory nor a playbook the
    process stops at the inventory check of [parse_args]; [run], which holds
    the playbook check, is never called. *)
Lemma inventory_checked_before_playbook :
  Sample.no_playbook_no_inventory_ns !! "playbook" = Some VNone
  ∧ parse_args Sample.world Sample.no_playbook_no_inventory_ns new_script =
      (new_script, [Exit 1 (Some "Could not detect default inventory path")],
       Raise (SystemExit 1))
  ∧ playbook_main Sample.world Sample.no_playbook_no_inventory_ns =
      ([Exit 1 (Some "Could not detect default inventory path")], Raise (SystemExit 1))
  ∧ ¬ playbook_checked_first Sample.world Sample.no_playbook_no_inventory_ns.
Proof. split_and!; [by vm_compute..|]. unfold playbook_checked_first. by vm_compute. Qed.

Lemma PlaybookScript_run_no_playbook w args self playbook :
  args !! "playbook" = Some playbook → truthy playbook = false →
  PlaybookScript_run w args self =
    (self, [Exit 1 (Some "No playbook provided")], Raise (SystemExit 1)).
Proof.
  intros Hp Ht. unfold PlaybookScript_run.
  rewrite bind_run, (getattr_Some _ _ playbook) by done. by rewrite Ht.
Qed.

(** C1, amended. [PlaybookScript.run] exits with code 1 and the message
    "No playbook provided" when the playbook argument is missing, before it
    builds a runner and whatever the inventory attribute holds.  The check
    lives in [run], which takes the namespace [parse_args] returned: when
    [parse_args] stops (version, inventory, a failed prompt), the process
    ends there and the playbook check is not reached; when it returns, the
    exit follows its trace. *)
Theorem playbook_checked_in_run w ns self playbook :
  ns !! "playbook" = Some playbook → truthy playbook = false →
  PlaybookScript_run w ns self =
    (self, [Exit 1 (Some "No playbook provided")], Raise (SystemExit 1))
  ∧ (∀ self' t e, parse_args w ns self = (self', t, Raise e) →
       controller (PlaybookScript_run w) w ns self = (self', t, Raise e))
  ∧ (∀ self' t args, parse_args w ns self = (self', t, Ok args) →
       controller (PlaybookScript_run w) w ns self =
         (self', t ++ [Exit 1 (Some "No playbook provided")], Raise (SystemExit 1))).
Proof.
  intros Hp Ht. split_and!.
  - by apply (PlaybookScript_run_no_playbook _ _ _ playbook).
  - intros self' t e H. by apply controller_parse_Raise.
  - intros self' t args H.
    assert (args !! "playbook" = Some playbook) as Hp'.
    { by rewrite (parse_args_keeps _ _ _ _ _ _ "playbook" H). }
    by rewrite (controller_parse_Ok _ _ _ _ _ _ _ _ _ _ H
                  (PlaybookScript_run_no_playbook w args self' playbook Hp' Ht)).
Qed.

Lemma playbook_checked_in_run_witness :
  PlaybookScript_run Sample.world Sample.no_playbook_ns new_script =
    (new_script, [Exit 1 (Some "No playbook provided")], Raise (SystemExit 1)).
Proof.
  exact (proj1 (playbook_checked_in_run Sample.world Sample.no_playbook_ns new_script
                  VNone eq_refl eq_refl)).
Defined.

(** ** The ad-hoc schema *)

(** C4. [AnsibleScript.__init__] raises [NameError] for the name
    [DEFAULT_become_USER], which no import binds (the module imports
    [DEFAULT_BECOME_USER]), whatever the values of the imported constants;
    hence a process in ad-hoc mode ends with that error for every command
    line, with an empty trace: no check of [parse_args] runs and no runner is
    built or run. *)
Theorem adhoc_schema_raises_NameError w :
  AnsibleScript_init w = Raise (NameError "DEFAULT_become_USER")
  ∧ (∀ ns, adhoc_main w ns = ([], Raise (NameError "DEFAULT_become_USER")))
  ∧ ("DEFAULT_become_USER" ∉ module_globals)
  ∧ ("DEFAULT_BECOME_USER" ∈ module_globals).
Proof.
  assert (AnsibleScript_init w = Raise (NameError "DEFAULT_become_USER")) as Hinit.
  { vm_compute. reflexivity. }
  split_and!; [done| | |].
  - intros ns. unfold adhoc_main. by rewrite Hinit.
  - by apply (bool_decide_unpack _).
  - by apply (bool_decide_unpack _).
Qed.

(** ** The runner field *)

Lemma registered_during_snapshot h t :
  Forall (snapshot_is h) t → Forall (eq h) (registered_during t).
Proof.
  induction 1 as [|ev t Hev _ IH]; [constructor|].
  unfold registered_during in *. destruct ev; simpl; try done.
  constructor; [|done]. symmetry. by eapply Hev.
Qed.

Lemma respects_SIGINT_call w cls kw : respects snapshot_is (in_flight_call w cls kw).
Proof.
  intros self. unfold in_flight_call, SIGINT.
  destruct (runner_run w cls kw) as [r|react].
  - split; [done|]. repeat constructor. by intros ??? [= _ _ <-].
  - destruct (runner self) eqn:Hr; (split; [done|]); unfold trace_of; simpl;
      repeat constructor; try (by intros ??? [= _ _ <-]); by intros ??? [=].
Qed.

Lemma respects_guarded_run w cls kw : respects snapshot_is (guarded_run w cls kw).
Proof.
  intros self. unfold guarded_run.
  destruct (respects_SIGINT_call w cls kw self) as [Hr Ht].
  by destruct (in_flight_call w cls kw self) as [[s t] r].
Qed.

Lemma respects_AnsibleScript_run w args :
  respects snapshot_is (AnsibleScript_run w args).
Proof.
  unfold AnsibleScript_run, AnsibleScript_kwargs, new_runner.
  repeat first
    [ apply respects_guarded_run
    | apply respects_bind; [|intros ?]
    | apply respects_getattr
    | apply respects_lift
    | apply respects_ret
    | apply respects_external; by intros ???? [=] ].
Qed.

Lemma respects_PlaybookScript_run w args :
  respects snapshot_is (PlaybookScript_run w args).
Proof.
  unfold PlaybookScript_run, PlaybookScript_kwargs, new_runner.
  repeat first
    [ apply respects_guarded_run
    | apply respects_bind; [|intros ?]
    | apply respects_getattr
    | apply respects_lift
    | apply respects_ret
    | apply respects_when
    | apply respects_exit; by intros ???? [=]
    | apply respects_external; by intros ???? [=] ].
Qed.

Lemma respects_parse_args w args : respects snapshot_is (parse_args w args).
Proof.
  unfold parse_args, check_version, check_inventory, check_pattern, show_version,
    message, resolve_remote_pass, resolve_become_pass, resolve_mode, resolve_vault.
  repeat first
    [ apply respects_bind; [|intros ?]
    | apply respects_getattr
    | apply respects_lift
    | apply respects_ret
    | apply respects_when
    | apply respects_assign_mode
    | apply respects_exit; by intros ???? [=]
    | apply respects_external; by intros ???? [=]
    | apply respects_emit; by intros ???? [=]
    | case_match ].
Qed.

Lemma respects_controller run w ns :
  (∀ args, respects snapshot_is (run args)) →
  respects snapshot_is (controller run w ns).
Proof.
  intros Hrun. unfold controller.
  apply respects_bind; [apply respects_parse_args|]. intros args.
  apply respects_bind; [|intros _; apply respects_exit; by intros ???? [=]].
  intros self. destruct (Hrun args self) as [Hr Ht].
  destruct (run args self) as [[s t] [a|e]]; [done|].
  destruct e; try done.
  unfold state_of, trace_of in *; simpl in *. split; [done|].
  apply Forall_app. split; [done|]. repeat constructor. by intros ??? [=].
Qed.

(** C2. The code never assigns [self.runner]: it is [None] when the script
    is built and [None] whenever [runner.run()] is entered, in both
    adapters and in a whole playbook-mode process; both [run] methods leave
    the field as they found it.  At the sample command line the engine call
    is in flight with [self.runner] absent, and an interrupt during that
    call finds no runner and takes the exit branch of the handler. *)
Theorem runner_never_registered w args m :
  (runner (state_of (AnsibleScript_run w args {| runner := None; mode := m |})) = None
   ∧ Forall (eq None)
       (registered_during
          (trace_of (AnsibleScript_run w args {| runner := None; mode := m |}))))
  ∧ (runner (state_of (PlaybookScript_run w args {| runner := None; mode := m |})) = None
     ∧ Forall (eq None)
         (registered_during
            (trace_of (PlaybookScript_run w args {| runner := None; mode := m |}))))
  ∧ Forall (eq None) (registered_during (playbook_main w args).1)
  ∧ playbook_main Sample.world Sample.playbook_ns =
      ([NewRunner PlaybookRunner Sample.playbook_kwargs;
        RunnerRun PlaybookRunner Sample.playbook_kwargs None;
        Exit 0 None],
       Raise (SystemExit 0))
  ∧ playbook_main Sample.interrupted_world Sample.playbook_ns =
      ([NewRunner PlaybookRunner Sample.playbook_kwargs;
        RunnerRun PlaybookRunner Sample.playbook_kwargs None;
        Exit 1 None],
       Raise (SystemExit 1)).
Proof.
  pose proof (respects_AnsibleScript_run w args {| runner := None; mode := m |})
    as [Ha Hta].
  pose proof (respects_PlaybookScript_run w args {| runner := None; mode := m |})
    as [Hp Htp].
  split_and!.
  - done.
  - by apply registered_during_snapshot.
  - done.
  - by apply registered_during_snapshot.
  - rewrite playbook_main_controller. simpl.
    apply registered_during_snapshot.
    apply (respects_controller (PlaybookScript_run w) w args
             (respects_PlaybookScript_run w) new_script).
  - by vm_compute.
  - by vm_compute.
Qed.

(** ** Interrupts *)

(** On a script on which a runner had been stored, the handler raises
    [KeyboardInterrupt], which the adapter's handler for [AnsibleError] does
    not catch; with an engine that lets it through, it leaves the adapter as
    it is. *)
Lemma interrupt_escapes_adapter :
  runner Sample.running_script ≠ None
  ∧ guarded_run Sample.interrupted_world PlaybookRunner [] Sample.running_script =
      (Sample.running_script,
       [RunnerRun PlaybookRunner [] (Some (PlaybookRunner, []))],
       Raise KeyboardInterrupt)
  ∧ ¬ interrupt_becomes_RunnerError
        Sample.interrupted_world PlaybookRunner [] Sample.running_script.
Proof.
  split_and!; [done|by vm_compute|].
  intros [emsg H]. by vm_compute in H.
Qed.

Lemma SIGINT_idle self :
  runner self = None → SIGINT self = (self, [Exit 1 None], Raise (SystemExit 1)).
Proof. intros H. unfold SIGINT. by rewrite H. Qed.

Lemma SIGINT_running self h :
  runner self = Some h → SIGINT self = (self, [], Raise KeyboardInterrupt).
Proof. intros H. unfold SIGINT. by rewrite H. Qed.

Lemma guarded_run_interrupted w cls kw react self :
  runner_run w cls kw = Interrupted react →
  guarded_run w cls kw self =
    match runner self with
    | None => (self, [RunnerRun cls kw None; Exit 1 None], translate (react (SystemExit 1)))
    | Some h => (self, [RunnerRun cls kw (Some h)], translate (react KeyboardInterrupt))
    end.
Proof.
  intros H. unfold guarded_run, in_flight_call. rewrite H.
  destruct (runner self) as [h|] eqn:Hr.
  - by rewrite (SIGINT_running self h).
  - by rewrite (SIGINT_idle self).
Qed.

Lemma parse_args_interrupted_sample :
  parse_args Sample.interrupted_world Sample.playbook_ns new_script =
    (set_mode "become root " new_script, [], Ok Sample.validated_playbook_ns).
Proof.
  vm_cast_no_check
    (eq_refl (set_mode "become root " new_script, @nil event,
              Ok Sample.validated_playbook_ns)).
Qed.

Lemma kwargs_interrupted_sample :
  PlaybookScript_kwargs Sample.interrupted_world Sample.validated_playbook_ns
    (set_mode "become root " new_script)
  = (set_mode "become root " new_script, [], Ok Sample.playbook_kwargs).
Proof.
  vm_cast_no_check
    (eq_refl (set_mode "become root " new_script, @nil event,
              @Ok kwargs Sample.playbook_kwargs)).
Qed.

(** C3. What an interrupt does in the code.  The handler alone: with no
    runner on the script it calls [self.exit(1)], exit code 1 and no
    message; with a runner on the script it raises [KeyboardInterrupt], which
    the adapter does not translate.  In a playbook-mode process the second
    case never arises: when validation has returned and the engine call is
    interrupted, [self.runner] is [None], the handler takes the exit branch
    inside the call in flight, and the adapter's outcome is what the engine
    makes of that [SystemExit], which fixes how the process ends; with an
    engine that lets it through the outcome is no [RunnerError] and the
    process ends with exit code 1 and no message, where the claim has a
    [RunnerError] and its message. *)
Theorem interrupt_handling w ns self' t args playbook kw react :
  parse_args w ns new_script = (self', t, Ok args) →
  args !! "playbook" = Some playbook → truthy playbook = true →
  PlaybookScript_kwargs w args self' = (self', [], Ok kw) →
  runner_new w PlaybookRunner kw = Ok tt →
  runner_run w PlaybookRunner kw = Interrupted react →
  runner self' = None
  ∧ PlaybookScript_run w args self' =
      (self',
       [NewRunner PlaybookRunner kw; RunnerRun PlaybookRunner kw None; Exit 1 None],
       translate (react (SystemExit 1)))
  ∧ playbook_main w ns =
      match translate (react (SystemExit 1)) with
      | Ok _ =>
          (t ++ [NewRunner PlaybookRunner kw; RunnerRun PlaybookRunner kw None;
                 Exit 1 None; Exit 0 None],
           Raise (SystemExit 0))
      | Raise (RunnerError emsg) =>
          (t ++ [NewRunner PlaybookRunner kw; RunnerRun PlaybookRunner kw None;
                 Exit 1 None; Exit 1 (Some emsg)],
           Raise (SystemExit 1))
      | Raise e =>
          (t ++ [NewRunner PlaybookRunner kw; RunnerRun PlaybookRunner kw None;
                 Exit 1 None],
           Raise e)
      end
  ∧ (react (SystemExit 1) = Raise (SystemExit 1) →
       ¬ interrupt_becomes_RunnerError w PlaybookRunner kw self'
       ∧ playbook_main w ns =
           (t ++ [NewRunner PlaybookRunner kw; RunnerRun PlaybookRunner kw None;
                  Exit 1 None],
            Raise (SystemExit 1)))
  ∧ (∀ self, runner self = None →
       SIGINT self = (self, [Exit 1 None], Raise (SystemExit 1))
       ∧ ∀ cls kw0 react0,
           runner_run w cls kw0 = Interrupted react0 →
           guarded_run w cls kw0 self =
             (self, [RunnerRun cls kw0 None; Exit 1 None],
              translate (react0 (SystemExit 1))))
  ∧ (∀ self h cls kw0 react0,
       runner self = Some h →
       runner_run w cls kw0 = Interrupted react0 →
       SIGINT self = (self, [], Raise KeyboardInterrupt)
       ∧ guarded_run w cls kw0 self =
           (self, [RunnerRun cls kw0 (Some h)], translate (react0 KeyboardInterrupt))
       ∧ (react0 KeyboardInterrupt = Raise KeyboardInterrupt →
            result_of (guarded_run w cls kw0 self) = Raise KeyboardInterrupt)
       ∧ (∀ emsg, react0 KeyboardInterrupt = Raise (AnsibleError emsg) →
            result_of (guarded_run w cls kw0 self) = Raise (RunnerError emsg))).
Proof.
  intros Hparse Hp Htp Hkw Hnew Hrun.
  assert (runner self' = None) as Hnone.
  { destruct (respects_parse_args w ns new_script) as [Hr _].
    by rewrite Hparse in Hr. }
  pose proof (guarded_run_interrupted w PlaybookRunner kw react self' Hrun) as Hg.
  rewrite Hnone in Hg.
  assert (PlaybookScript_run w args self' =
    (self',
     [NewRunner PlaybookRunner kw; RunnerRun PlaybookRunner kw None; Exit 1 None],
     translate (react (SystemExit 1)))) as Hrunm.
  { unfold PlaybookScript_run.
    rewrite (bind_silent _ _ _ playbook) by by apply getattr_Some.
    rewrite Htp. rewrite (bind_silent _ _ _ tt) by done.
    rewrite (bind_silent _ _ _ kw) by done.
    rewrite bind_run. unfold new_runner. unfold_monad. by rewrite Hnew, Hg. }
  assert (playbook_main w ns =
      match translate (react (SystemExit 1)) with
      | Ok _ =>
          (t ++ [NewRunner PlaybookRunner kw; RunnerRun PlaybookRunner kw None;
                 Exit 1 None; Exit 0 None],
           Raise (SystemExit 0))
      | Raise (RunnerError emsg) =>
          (t ++ [NewRunner PlaybookRunner kw; RunnerRun PlaybookRunner kw None;
                 Exit 1 None; Exit 1 (Some emsg)],
           Raise (SystemExit 1))
      | Raise e =>
          (t ++ [NewRunner PlaybookRunner kw; RunnerRun PlaybookRunner kw None;
                 Exit 1 None],
           Raise e)
      end) as Hmain.
  { rewrite playbook_main_controller.
    rewrite (controller_parse_Ok _ _ _ _ _ _ _ _ _ _ Hparse Hrunm).
    by destruct (translate (react (SystemExit 1))) as [a|[]]. }
  split_and!; [done|done|done| | |].
  - intros Hreact. split.
    + intros [emsg He]. by rewrite Hg, Hreact in He.
    + rewrite Hmain. by rewrite Hreact.
  - intros self Hr. split; [by apply SIGINT_idle|].
    intros cls kw0 react0 Hrun0.
    pose proof (guarded_run_interrupted w cls kw0 react0 self Hrun0) as Hg0.
    by rewrite Hr in Hg0.
  - intros self h cls kw0 react0 Hr Hrun0.
    pose proof (guarded_run_interrupted w cls kw0 react0 self Hrun0) as Hg0.
    rewrite Hr in Hg0. split_and!; [by apply (SIGINT_running _ h)|done| |].
    + intros Hreact. by rewrite Hg0, Hreact.
    + intros emsg Hreact. by rewrite Hg0, Hreact.
Qed.

Lemma interrupt_handling_witness :
  playbook_main Sample.interrupted_world Sample.playbook_ns =
    ([NewRunner PlaybookRunner Sample.playbook_kwargs;
      RunnerRun PlaybookRunner Sample.playbook_kwargs None;
      Exit 1 None],
     Raise (SystemExit 1))
  ∧ ¬ interrupt_becomes_RunnerError Sample.interrupted_world PlaybookRunner
        Sample.playbook_kwargs (set_mode "become root " new_script)
  ∧ SIGINT new_script = (new_script, [Exit 1 None], Raise (SystemExit 1)).
Proof.
  pose proof (interrupt_handling Sample.interrupted_world Sample.playbook_ns
                (set_mode "become root " new_script) [] Sample.validated_playbook_ns
                (VStr "site.yml") Sample.playbook_kwargs Raise
                parse_args_interrupted_sample eq_refl eq_refl
                kwargs_interrupted_sample eq_refl eq_refl)
    as (_ & _ & _ & H3 & H4 & _).
  destruct (H3 eq_refl) as [Hno Hmain].
  exact (conj Hmain (conj Hno (proj1 (H4 new_script eq_refl)))).
Defined.

(** ** Error translation *)

(** C5, as stated, fails: an engine failure that is not an [AnsibleError]
    leaves [PlaybookScript.run] as it was raised. *)
Lemma other_errors_escape_adapter :
  PlaybookScript_run Sample.failing_world Sample.validated_playbook_ns new_script =
    (new_script,
     [NewRunner PlaybookRunner Sample.playbook_kwargs;
      RunnerRun PlaybookRunner Sample.playbook_kwargs None],
     Raise (OtherError "IOError" "Broken pipe"))
  ∧ ¬ only_RunnerError_escapes
        (result_of (PlaybookScript_run Sample.failing_world
                      Sample.validated_playbook_ns new_script)).
Proof. split; [by vm_compute|]. intros H. by vm_compute in H. Qed.

Lemma guarded_run_completes w cls kw self r :
  runner_run w cls kw = Completes r →
  guarded_run w cls kw self = (self, [RunnerRun cls kw (runner self)], translate r).
Proof. intros H. unfold guarded_run, in_flight_call. by rewrite H. Qed.

Lemma new_runner_ok w cls kw self :
  runner_new w cls kw = Ok tt → new_runner w cls kw self = (self, [NewRunner cls kw], Ok tt).
Proof. intros H. unfold new_runner, external. unfold_monad. by rewrite H. Qed.

(** C5, amended. In both adapters the call [runner.run()] is guarded by one
    handler, for [AnsibleError]: such a failure leaves the adapter as a
    [RunnerError] with the same message; a result is returned as it is; a
    failure of any other type leaves the adapter unchanged. *)
Theorem adapter_translates_AnsibleError w cls kw self r :
  runner_new w cls kw = Ok tt →
  runner_run w cls kw = Completes r →
  guarded_run w cls kw self = (self, [RunnerRun cls kw (runner self)], translate r)
  ∧ (∀ emsg, r = Raise (AnsibleError emsg) →
       result_of (guarded_run w cls kw self) = Raise (RunnerError emsg))
  ∧ (∀ e, r = Raise e → (∀ emsg, e ≠ AnsibleError emsg) →
       result_of (guarded_run w cls kw self) = Raise e)
  ∧ (∀ v, r = Ok v → result_of (guarded_run w cls kw self) = Ok v)
  ∧ (∀ args, cls = AnsibleRunner →
       AnsibleScript_kwargs w args self = (self, [], Ok kw) →
       AnsibleScript_run w args self =
         (self, [NewRunner cls kw; RunnerRun cls kw (runner self)], translate r))
  ∧ (∀ args playbook, cls = PlaybookRunner →
       args !! "playbook" = Some playbook → truthy playbook = true →
       PlaybookScript_kwargs w args self = (self, [], Ok kw) →
       PlaybookScript_run w args self =
         (self, [NewRunner cls kw; RunnerRun cls kw (runner self)], translate r)).
Proof.
  intros Hnew Hrun.
  pose proof (guarded_run_completes w cls kw self r Hrun) as Hg.
  split_and!; [done| | | | |].
  - intros emsg ->. by rewrite Hg.
  - intros e -> Hne. rewrite Hg. destruct e; try done. by destruct (Hne msg).
  - intros v ->. by rewrite Hg.
  - intros args -> Hkw. unfold AnsibleScript_run.
    by rewrite bind_run, Hkw, bind_run, new_runner_ok, Hg.
  - intros args playbook -> Hp Ht Hkw. unfold PlaybookScript_run.
    rewrite bind_run, (getattr_Some _ _ playbook) by done. rewrite Ht.
    rewrite bind_run, when_false.
    by rewrite bind_run, Hkw, bind_run, new_runner_ok, Hg.
Qed.

Lemma adapter_translates_AnsibleError_witness :
  PlaybookScript_run Sample.failing_world Sample.validated_playbook_ns new_script =
    (new_script,
     [NewRunner PlaybookRunner Sample.playbook_kwargs;
      RunnerRun PlaybookRunner Sample.playbook_kwargs None],
     Raise (OtherError "IOError" "Broken pipe")).
Proof.
  pose proof (adapter_translates_AnsibleError Sample.failing_world PlaybookRunner
                Sample.playbook_kwargs new_script
                (Raise (OtherError "IOError" "Broken pipe")) eq_refl eq_refl)
    as (_ & _ & _ & _ & _ & H).
  exact (H Sample.validated_playbook_ns (VStr "site.yml") eq_refl eq_refl eq_refl eq_refl).
Defined.

(** * Further properties *)

(** ** create_directory *)

(** X1. [create_directory] touches the file system at most once, through
    [os.makedirs] on the directory it was given, and only when the directory
    does not exist yet; on an existing directory it returns normally. *)
Theorem create_directory_guard fs directory :
  (isdir fs directory = true → (create_directory fs directory).2 = Ok tt)
  ∧ (∀ d, Makedirs d ∈ (create_directory fs directory).1 →
       d = directory ∧ isdir fs directory = false)
  ∧ ((create_directory fs directory).1 = [Debug ("directory already exists: " +:+ directory)]
     ∨ (create_directory fs directory).1 = [Makedirs directory]).
Proof.
  unfold create_directory. split_and!.
  - by intros ->.
  - intros d. destruct (isdir fs directory).
    { intros [=]%list_elem_of_singleton. }
    destruct (makedirs fs directory) as [|[] args|e];
      try destruct (unpack_pair args) as [[]|]; simpl;
      by intros [= ->]%list_elem_of_singleton.
  - destruct (isdir fs directory); [by left|]. right.
    destruct (makedirs fs directory) as [|[] args|e];
      by try destruct (unpack_pair args) as [[]|].
Qed.

Lemma create_directory_guard_witness :
  (create_directory Cases.disk "/var/reports").2 = Ok tt.
Proof.
  exact (proj1 (create_directory_guard Cases.disk "/var/reports") eq_refl).
Defined.

(** X2. When [os.makedirs] fails with an [IOError] or an [OSError] carrying
    an error code and a message, [create_directory] raises a [RunnerError]
    whose text names the directory and repeats the message; the error code
    is dropped and both classes give the same text. *)
Theorem create_directory_RunnerError fs directory cls ecode emsg :
  isdir fs directory = false →
  makedirs fs directory = EnvironmentError cls [ecode; emsg] →
  create_directory fs directory =
    ([Makedirs directory],
     Raise (RunnerError ("Error creating directory " +:+ directory +:+ ": " +:+ str emsg))).
Proof.
  intros Hd Hm. unfold create_directory. rewrite Hd, Hm. by destruct cls.
Qed.

Lemma create_directory_RunnerError_witness :
  create_directory Cases.disk "/proc/reports" =
    ([Makedirs "/proc/reports"],
     Raise (RunnerError "Error creating directory /proc/reports: Permission denied")).
Proof.
  exact (create_directory_RunnerError Cases.disk "/proc/reports" OSError
           (VInt 13) (VStr "Permission denied") eq_refl eq_refl).
Defined.

(** X3. Not every failure becomes a [RunnerError]: an [IOError] or [OSError]
    that does not carry exactly two values fails the unpacking of the
    [except] clause, and [ValueError] leaves [create_directory]; an exception
    of another class raised by [os.makedirs] leaves it unchanged. *)
Theorem create_directory_other_errors fs directory :
  isdir fs directory = false →
  (∀ cls args, makedirs fs directory = EnvironmentError cls args →
     List.length args ≠ 2%nat →
     ∃ msg, create_directory fs directory =
              ([Makedirs directory], Raise (OtherError "ValueError" msg)))
  ∧ (∀ e, makedirs fs directory = MakedirsRaises e →
       create_directory fs directory = ([Makedirs directory], Raise e)).
Proof.
  intros Hd. unfold create_directory. rewrite Hd. split.
  - intros cls args -> Hlen.
    destruct args as [|a [|b [|c args]]]; try done; destruct cls; by eexists.
  - by intros e ->.
Qed.

Lemma create_directory_other_errors_witness :
  ∃ msg, create_directory
           {| isdir := λ _, false;
              makedirs := λ _, EnvironmentError IOError [VStr "disk full"] |}
           "/var/reports"
         = ([Makedirs "/var/reports"], Raise (OtherError "ValueError" msg)).
Proof.
  refine (proj1 (create_directory_other_errors
                   {| isdir := λ _, false;
                      makedirs := λ _, EnvironmentError IOError [VStr "disk full"] |}
                   "/var/reports" eq_refl) IOError [VStr "disk full"] eq_refl _).
  simpl. lia.
Defined.

(** ** The steps of [parse_args] after the checks *)

Lemma resolve_remote_pass_skipped w args self v :
  args !! "ask_pass" = Some v → truthy v = false →
  resolve_remote_pass w args self = (self, [], Ok (<["remote_pass" := VNone]> args)).
Proof.
  intros Hv Ht. unfold resolve_remote_pass.
  rewrite bind_run, (getattr_Some _ _ v) by done. by rewrite Ht.
Qed.

Lemma resolve_remote_pass_asked w args self v :
  args !! "ask_pass" = Some v → truthy v = true →
  resolve_remote_pass w args self =
    match getpass w "Enter remote user password: " with
    | Ok p => (self, [Getpass "Enter remote user password: "],
               Ok (<["remote_pass" := VStr p]> args))
    | Raise e => (self, [Getpass "Enter remote user password: "], Raise e)
    end.
Proof.
  intros Hv Ht. unfold resolve_remote_pass.
  rewrite bind_run, (getattr_Some _ _ v) by done. rewrite Ht.
  unfold_monad. by destruct (getpass w _).
Qed.

Lemma resolve_become_pass_skipped w args self v :
  args !! "ask_become_pass" = Some v → truthy v = false →
  resolve_become_pass w args self = (self, [], Ok (<["become_pass" := VNone]> args)).
Proof.
  intros Hv Ht. unfold resolve_become_pass.
  rewrite bind_run, (getattr_Some _ _ v) by done. by rewrite Ht.
Qed.

Lemma resolve_become_pass_asked w args self v :
  args !! "ask_become_pass" = Some v → truthy v = true →
  resolve_become_pass w args self =
    match getpass w "Enter become password: " with
    | Ok p => (self, [Getpass "Enter become password: "],
               Ok (<["become_pass" := VStr p]> args))
    | Raise e => (self, [Getpass "Enter become password: "], Raise e)
    end.
Proof.
  intros Hv Ht. unfold resolve_become_pass.
  rewrite bind_run, (getattr_Some _ _ v) by done. rewrite Ht.
  unfold_monad. by destruct (getpass w _).
Qed.

Lemma resolve_vault_skipped w args self v :
  args !! "vault_password_file" = Some v → truthy v = false →
  resolve_vault w args self = (self, [], Ok (<["vault_pass" := VBool false]> args)).
Proof.
  intros Hv Ht. unfold resolve_vault.
  rewrite bind_run, (getattr_Some _ _ v) by done. by rewrite Ht.
Qed.

Lemma resolve_vault_read w args self path :
  args !! "vault_password_file" = Some path → truthy path = true →
  resolve_vault w args self =
    match read_vault_file w path with
    | Ok secret => (self, [ReadVaultFile path], Ok (<["vault_pass" := secret]> args))
    | Raise e => (self, [ReadVaultFile path], Raise e)
    end.
Proof.
  intros Hv Ht. unfold resolve_vault.
  rewrite bind_run, (getattr_Some _ _ path) by done. rewrite Ht.
  unfold_monad. by destruct (read_vault_file w _).
Qed.

(** Past the three checks, what is left of [parse_args]. *)
Lemma parse_args_after_checks w args self version inventory :
  args !! "version" = Some version → truthy version = false →
  args !! "inventory" = Some inventory → is_none inventory = false →
  args !! "pattern" = None →
  parse_args w args self =
    (args ← resolve_remote_pass w args;
     args ← resolve_become_pass w args;
     resolve_mode args ;; resolve_vault w args) self.
Proof.
  intros Hv Htv Hi Hn Hp. unfold parse_args.
  rewrite (bind_silent _ _ _ tt) by by apply (check_version_unset _ _ _ version).
  rewrite (bind_silent _ _ _ tt) by by apply (check_inventory_set _ _ inventory).
  by rewrite (bind_silent _ _ _ tt) by by apply check_pattern_absent.
Qed.

Ltac lookup_ne := by rewrite ?lookup_insert_ne.

(** ** Validation on the quiet path *)

(** X4. On a namespace of the playbook schema with no flag set (no version,
    a detected inventory, no ask flag, neither become nor su, no vault
    file), [parse_args] makes no call outside the module, leaves the script
    as it found it (the mode is not reset) and returns the namespace with
    exactly three more attributes: both passwords [None] and the vault
    secret [False]. *)
Theorem parse_args_quiet w args self version inventory ask_pass ask_become_pass
    become su vault_file :
  declares PlaybookScript_dests args →
  args !! "version" = Some version → truthy version = false →
  args !! "inventory" = Some inventory → is_none inventory = false →
  args !! "ask_pass" = Some ask_pass → truthy ask_pass = false →
  args !! "ask_become_pass" = Some ask_become_pass → truthy ask_become_pass = false →
  args !! "become" = Some become → truthy become = false →
  args !! "su" = Some su → truthy su = false →
  args !! "vault_password_file" = Some vault_file → truthy vault_file = false →
  parse_args w args self =
    (self, [],
     Ok (<["vault_pass" := VBool false]>
           (<["become_pass" := VNone]> (<["remote_pass" := VNone]> args)))).
Proof.
  intros Hd Hv Htv Hi Hn Ha Hta Hb Htb Hbe Htbe Hsu Htsu Hvf Htvf.
  assert (args !! "pattern" = None) as Hp.
  { apply (declares_undeclared _ _ _ Hd). by apply (bool_decide_unpack _). }
  rewrite (parse_args_after_checks w args self version inventory) by done.
  rewrite bind_run, (resolve_remote_pass_skipped w args self ask_pass) by done.
  rewrite bind_run, (resolve_become_pass_skipped w _ self ask_become_pass) by lookup_ne.
  rewrite bind_run, (resolve_mode_none _ self become su) by lookup_ne.
  by rewrite (resolve_vault_skipped w _ self vault_file) by lookup_ne.
Qed.

Lemma parse_args_quiet_witness :
  parse_args Sample.world Cases.plain_ns Sample.running_script =
    (Sample.running_script, [], Ok Cases.validated_plain_ns).
Proof.
  refine (parse_args_quiet Sample.world Cases.plain_ns Sample.running_script
            (VBool false) (VStr "/etc/ansible/hosts") (VBool false) (VBool false)
            (VBool false) (VBool false) VNone _
            eq_refl eq_refl eq_refl eq_refl eq_refl eq_refl eq_refl eq_refl
            eq_refl eq_refl eq_refl eq_refl eq_refl eq_refl).
  unfold declares. apply (bool_decide_unpack _). vm_compute. exact I.
Defined.

(** ** Prompts *)

(** The last two steps: mode resolution is silent, and the vault step makes
    at most one call, the read of the vault file. *)
Lemma parse_args_tail w args self :
  ∃ self' t r,
    (resolve_mode args ;; resolve_vault w args) self = (self', t, r)
    ∧ (t = [] ∨ ∃ path, t = [ReadVaultFile path])
    ∧ (∀ args', r = Ok args' → ∃ secret, args' = <["vault_pass" := secret]> args).
Proof.
  rewrite bind_run.
  destruct (resolve_mode_run args self) as (s1 & [[]|e] & -> & _).
  2:{ eexists _, _, _. split_and!; [done|by left|done]. }
  unfold resolve_vault. unfold_monad.
  destruct (args !! "vault_password_file") as [v|].
  2:{ eexists _, _, _. split_and!; [done|by left|done]. }
  destruct (truthy v).
  - destruct (read_vault_file w v) as [secret|e];
      eexists _, _, _; (split_and!; [done|right; by eexists|]); [|done].
    intros ? [= <-]. by eexists.
  - eexists _, _, _. split_and!; [done|by left|]. intros ? [= <-]. by eexists.
Qed.

(** A pattern check that passes has queried the inventory once when the
    namespace has a pattern, and not at all when it has none. *)
Lemma check_pattern_passes w args self inventory t0 :
  args !! "inventory" = Some inventory →
  check_pattern w args self = (self, t0, Ok tt) →
  match args !! "pattern" with
  | None => t0 = []
  | Some pattern => t0 = [ListHosts inventory pattern]
  end.
Proof.
  intros Hi Hcp.
  destruct (args !! "pattern") as [pattern|] eqn:Hp.
  - destruct (list_hosts w inventory pattern) as [hosts|e] eqn:Hl.
    + rewrite (check_pattern_hosts w args self inventory pattern hosts) in Hcp by done.
      case_bool_decide; by simplify_eq.
    + unfold check_pattern in Hcp. rewrite Hp in Hcp.
      unfold_monad. rewrite Hi, Hp, Hl in Hcp. by simplify_eq.
  - rewrite (check_pattern_absent w args self Hp) in Hcp. by simplify_eq.
Qed.

(** X5. On a namespace that has passed the version and inventory checks
    and whose pattern check passes (with trace [t0]: empty without a pattern
    attribute, the one inventory query with one), with both ask flags set
    and both prompts answered, [parse_args] prompts exactly twice, first for
    the remote password and then for the become password, with the two
    prompt texts of the source, right after the checks and before mode
    resolution and the vault step, whatever the become, su and vault
    attributes hold; the two answers are in [remote_pass] and [become_pass]
    of the namespace the later steps work on and of the namespace returned.
    Without a pattern and with neither become nor su nor a vault file, these
    two prompts are the whole trace. *)
Theorem parse_args_prompts
    w args self version inventory ask_pass ask_become_pass t0 p1 p2 :
  args !! "version" = Some version → truthy version = false →
  args !! "inventory" = Some inventory → is_none inventory = false →
  check_pattern w args self = (self, t0, Ok tt) →
  args !! "ask_pass" = Some ask_pass → truthy ask_pass = true →
  args !! "ask_become_pass" = Some ask_become_pass → truthy ask_become_pass = true →
  getpass w "Enter remote user password: " = Ok p1 →
  getpass w "Enter become password: " = Ok p2 →
  parse_args w args self =
    match (resolve_mode (<["become_pass" := VStr p2]> (<["remote_pass" := VStr p1]> args)) ;;
           resolve_vault w (<["become_pass" := VStr p2]> (<["remote_pass" := VStr p1]> args)))
            self with
    | (self', t, r) =>
        (self',
         t0 ++ [Getpass "Enter remote user password: "; Getpass "Enter become password: "]
            ++ t,
         r)
    end
  ∧ match args !! "pattern" with
    | None => t0 = []
    | Some pattern => t0 = [ListHosts inventory pattern]
    end
  ∧ (∃ t, trace_of (parse_args w args self) =
            t0 ++ [Getpass "Enter remote user password: "; Getpass "Enter become password: "]
               ++ t
          ∧ ∀ prompt, Getpass prompt ∉ t0 ++ t)
  ∧ (∀ self' t args', parse_args w args self = (self', t, Ok args') →
       args' !! "remote_pass" = Some (VStr p1)
       ∧ args' !! "become_pass" = Some (VStr p2))
  ∧ (∀ become su vault_file,
       args !! "pattern" = None →
       args !! "become" = Some become → truthy become = false →
       args !! "su" = Some su → truthy su = false →
       args !! "vault_password_file" = Some vault_file → truthy vault_file = false →
       parse_args w args self =
         (self,
          [Getpass "Enter remote user password: "; Getpass "Enter become password: "],
          Ok (<["vault_pass" := VBool false]>
                (<["become_pass" := VStr p2]> (<["remote_pass" := VStr p1]> args))))).
Proof.
  intros Hv Htv Hi Hn Hcp Ha Hta Hb Htb Hg1 Hg2.
  assert (parse_args w args self =
    match (resolve_mode (<["become_pass" := VStr p2]> (<["remote_pass" := VStr p1]> args)) ;;
           resolve_vault w (<["become_pass" := VStr p2]> (<["remote_pass" := VStr p1]> args)))
            self with
    | (self', t, r) =>
        (self',
         t0 ++ [Getpass "Enter remote user password: "; Getpass "Enter become password: "]
            ++ t,
         r)
    end) as Heq.
  { unfold parse_args.
    rewrite (bind_silent _ _ _ tt) by by apply (check_version_unset _ _ _ version).
    rewrite (bind_silent _ _ _ tt) by by apply (check_inventory_set _ _ inventory).
    rewrite bind_run, Hcp.
    rewrite bind_run, (resolve_remote_pass_asked w args self ask_pass), Hg1 by done.
    rewrite bind_run, (resolve_become_pass_asked w _ self ask_become_pass), Hg2
      by lookup_ne.
    by destruct ((resolve_mode _ ;; resolve_vault w _) self) as [[??]?]. }
  pose proof (check_pattern_passes w args self inventory t0 Hi Hcp) as Ht0.
  split_and!; [done|done| | |].
  - rewrite Heq.
    destruct (parse_args_tail w
                (<["become_pass" := VStr p2]> (<["remote_pass" := VStr p1]> args)) self)
      as (s1 & t1 & r1 & -> & Ht & _).
    exists t1. split; [done|].
    intros prompt Hin. apply elem_of_app in Hin as [Hin|Hin].
    + destruct (args !! "pattern"); subst t0.
      * by apply list_elem_of_singleton in Hin.
      * by apply elem_of_nil in Hin.
    + destruct Ht as [->|[path ->]].
      * by apply elem_of_nil in Hin.
      * by apply list_elem_of_singleton in Hin.
  - intros self' t args' Hparse. rewrite Heq in Hparse.
    destruct (parse_args_tail w
                (<["become_pass" := VStr p2]> (<["remote_pass" := VStr p1]> args)) self)
      as (s1 & t1 & r1 & Htail & _ & Hr).
    rewrite Htail in Hparse. simplify_eq.
    destruct (Hr args' eq_refl) as [secret ->]. by simplify_map_eq.
  - intros become su vault_file Hp Hbe Htbe Hsu Htsu Hvf Htvf.
    rewrite Hp in Ht0. subst t0.
    rewrite Heq, bind_run, (resolve_mode_none _ self become su) by lookup_ne.
    by rewrite (resolve_vault_skipped w _ self vault_file) by lookup_ne.
Qed.

Lemma parse_args_prompts_witness :
  parse_args Sample.world Cases.ask_ns new_script =
    (new_script,
     [Getpass "Enter remote user password: "; Getpass "Enter become password: "],
     Ok (<["vault_pass" := VBool false]>
           (<["become_pass" := VStr "secret"]>
              (<["remote_pass" := VStr "secret"]> Cases.ask_ns))))
  ∧ parse_args Sample.world Cases.ask_vault_ns new_script =
    (set_mode "become root " new_script,
     [Getpass "Enter remote user password: "; Getpass "Enter become password: ";
      ReadVaultFile (VStr "vault.txt")],
     Ok (<["vault_pass" := VStr "vault-secret"]>
           (<["become_pass" := VStr "secret"]>
              (<["remote_pass" := VStr "secret"]> Cases.ask_vault_ns)))).
Proof.
  pose proof (parse_args_prompts Sample.world Cases.ask_ns new_script
                (VBool false) (VStr "/etc/ansible/hosts") (VBool true) (VBool true)
                [] "secret" "secret"
                eq_refl eq_refl eq_refl eq_refl eq_refl eq_refl eq_refl eq_refl eq_refl
                eq_refl eq_refl) as (_ & _ & _ & _ & H1).
  pose proof (parse_args_prompts Sample.world Cases.ask_vault_ns new_script
                (VBool false) (VStr "/etc/ansible/hosts") (VBool true) (VBool true)
                [] "secret" "secret"
                eq_refl eq_refl eq_refl eq_refl eq_refl eq_refl eq_refl eq_refl eq_refl
                eq_refl eq_refl) as (H2 & _).
  exact (conj (H1 (VBool false) (VBool false) VNone
                 eq_refl eq_refl eq_refl eq_refl eq_refl eq_refl eq_refl) H2).
Defined.

(** X6. A prompt that fails ends [parse_args] with the exception of
    [getpass], as it was raised: the become prompt is not shown, no vault
    file is read and the mode is not assigned. *)
Theorem parse_args_prompt_fails w args self version inventory ask_pass e :
  args !! "version" = Some version → truthy version = false →
  args !! "inventory" = Some inventory → is_none inventory = false →
  args !! "pattern" = None →
  args !! "ask_pass" = Some ask_pass → truthy ask_pass = true →
  getpass w "Enter remote user password: " = Raise e →
  parse_args w args self = (self, [Getpass "Enter remote user password: "], Raise e).
Proof.
  intros Hv Htv Hi Hn Hp Ha Hta Hg.
  rewrite (parse_args_after_checks w args self version inventory) by done.
  by rewrite bind_run, (resolve_remote_pass_asked w args self ask_pass), Hg.
Qed.

Lemma parse_args_prompt_fails_witness :
  parse_args Cases.no_terminal Cases.ask_ns new_script =
    (new_script, [Getpass "Enter remote user password: "],
     Raise (OtherError "EOFError" "")).
Proof.
  exact (parse_args_prompt_fails Cases.no_terminal Cases.ask_ns new_script
           (VBool false) (VStr "/etc/ansible/hosts") (VBool true)
           (OtherError "EOFError" "")
           eq_refl eq_refl eq_refl eq_refl eq_refl eq_refl eq_refl eq_refl).
Defined.

(** ** The vault file *)

Ltac early :=
  repeat first
    [ apply respects_exit; intros ?; exact I
    | apply respects_external; intros ?; exact I
    | apply respects_emit; intros ?; exact I
    | apply respects_bind; [|intros ?]
    | apply respects_getattr
    | apply respects_ret
    | apply respects_when
    | case_match ].

Lemma check_version_early w args : respects early_event (check_version w args).
Proof. unfold check_version, show_version, message. early. Qed.

Lemma check_inventory_early args : respects early_event (check_inventory args).
Proof. unfold check_inventory. early. Qed.

Lemma check_pattern_early w args : respects early_event (check_pattern w args).
Proof. unfold check_pattern. early. Qed.

Lemma resolve_remote_pass_early w args :
  respects early_event (resolve_remote_pass w args).
Proof. unfold resolve_remote_pass. early. Qed.

Lemma resolve_become_pass_early w args :
  respects early_event (resolve_become_pass w args).
Proof. unfold resolve_become_pass. early. Qed.

Lemma respects_trace {A} P (m : M A) self self' t r :
  respects P m → m self = (self', t, r) → Forall (P (runner self)) t.
Proof. intros Hm Heq. destruct (Hm self) as [_ Ht]. by rewrite Heq in Ht. Qed.

Lemma bind_assoc_run {A B C} (m : M A) (f : A → M B) (g : B → M C) self :
  ((m ≫= f) ≫= g) self = (m ≫= λ a, f a ≫= g) self.
Proof.
  rewrite !bind_run. destruct (m self) as [[s t] [a|e]]; [|done].
  rewrite bind_run. destruct (f a s) as [[s' t'] [b|e]]; [|done].
  destruct (g b s') as [[s'' t''] r]. by rewrite app_assoc.
Qed.

Lemma bind_ext_run {A B} (m : M A) (f f' : A → M B) self :
  (∀ a s, f a s = f' a s) → (m ≫= f) self = (m ≫= f') self.
Proof.
  intros H. rewrite !bind_run. destruct (m self) as [[s t] [a|e]]; [|done].
  by rewrite H.
Qed.

(** [parse_args] is its checks and prompts, then mode resolution and the
    vault step. *)
Lemma parse_args_split w args self :
  parse_args w args self =
    (a ← checks_and_passwords w args; resolve_mode a ;; resolve_vault w a) self.
Proof.
  unfold parse_args, checks_and_passwords. symmetry.
  rewrite bind_assoc_run. apply bind_ext_run. intros _ s0.
  rewrite bind_assoc_run. apply bind_ext_run. intros _ s1.
  rewrite bind_assoc_run. apply bind_ext_run. intros _ s2.
  by rewrite bind_assoc_run.
Qed.

(** The checks and prompts leave the script alone, make none but the early
    calls, and return the namespace with the two passwords added. *)
Lemma checks_and_passwords_run w args self :
  ∃ t r,
    checks_and_passwords w args self = (self, t, r)
    ∧ Forall (early_event (runner self)) t
    ∧ ∀ a, r = Ok a →
        ∃ rp bp, a = <["become_pass" := bp]> (<["remote_pass" := rp]> args).
Proof.
  unfold checks_and_passwords.
  rewrite bind_run.
  destruct (check_version_stateless w args self) as (t0 & r0 & H0).
  pose proof (respects_trace _ _ _ _ _ _ (check_version_early w args) H0) as F0.
  rewrite H0. destruct r0 as [[]|e]; [|by eexists _, _].
  rewrite bind_run.
  destruct (check_inventory_stateless args self) as (t1 & r1 & H1).
  pose proof (respects_trace _ _ _ _ _ _ (check_inventory_early args) H1) as F1.
  rewrite H1. destruct r1 as [[]|e].
  2:{ eexists _, _. split_and!; [done| |done]. by apply Forall_app. }
  rewrite bind_run.
  destruct (check_pattern_stateless w args self) as (t2 & r2 & H2).
  pose proof (respects_trace _ _ _ _ _ _ (check_pattern_early w args) H2) as F2.
  rewrite H2. destruct r2 as [[]|e].
  2:{ eexists _, _. split_and!; [done| |done]. by repeat (apply Forall_app; split). }
  rewrite bind_run.
  destruct (resolve_remote_pass_run w args self) as (t3 & r3 & H3 & Hr3).
  pose proof (respects_trace _ _ _ _ _ _ (resolve_remote_pass_early w args) H3) as F3.
  rewrite H3. destruct r3 as [a1|e].
  2:{ eexists _, _. split_and!; [done| |done]. by repeat (apply Forall_app; split). }
  destruct (Hr3 a1 eq_refl) as (rp & -> & _).
  destruct (resolve_become_pass_run w (<["remote_pass" := rp]> args) self)
    as (t4 & r4 & H4 & Hr4).
  pose proof (respects_trace _ _ _ _ _ _
                (resolve_become_pass_early w (<["remote_pass" := rp]> args)) H4) as F4.
  rewrite H4. eexists _, _. split_and!; [done| |].
  - by repeat (apply Forall_app; split).
  - intros a ->. destruct (Hr4 a eq_refl) as (bp & -> & _). by eexists _, _.
Qed.

(** X7. With a vault password file given and become set, whatever the ask
    flags, the pattern and the su toggle hold, [parse_args] is decided by
    its checks and prompts.  When they stop (a check exits, the inventory
    query or a prompt fails, an attribute is missing), [parse_args] ends
    there with their trace and their exception, without reading the file and
    with the script untouched.  When they return, [parse_args] reads the file
    exactly once, as its last call, after the mode has been assigned: the
    secret read is stored under [vault_pass] of the namespace returned, next
    to the two passwords, and a read that fails ends [parse_args] with the
    exception as it was raised, the mode assigned just before staying on the
    script.  With no ask flag and no pattern the read is the whole trace. *)
Theorem parse_args_vault w args self become become_user path :
  args !! "become" = Some become → truthy become = true →
  args !! "become_user" = Some become_user →
  args !! "vault_password_file" = Some path → truthy path = true →
  match checks_and_passwords w args self with
  | (_, t1, Ok a) =>
      (∀ p, ReadVaultFile p ∉ t1)
      ∧ (∃ rp bp, a = <["become_pass" := bp]> (<["remote_pass" := rp]> args))
      ∧ parse_args w args self =
          match read_vault_file w path with
          | Ok secret =>
              (set_mode ("become " +:+ str become_user +:+ " ") self,
               t1 ++ [ReadVaultFile path],
               Ok (<["vault_pass" := secret]> a))
          | Raise e =>
              (set_mode ("become " +:+ str become_user +:+ " ") self,
               t1 ++ [ReadVaultFile path], Raise e)
          end
  | (_, t1, Raise e) =>
      (∀ p, ReadVaultFile p ∉ t1)
      ∧ parse_args w args self = (self, t1, Raise e)
  end
  ∧ (∀ version inventory ask_pass ask_become_pass,
       args !! "version" = Some version → truthy version = false →
       args !! "inventory" = Some inventory → is_none inventory = false →
       args !! "pattern" = None →
       args !! "ask_pass" = Some ask_pass → truthy ask_pass = false →
       args !! "ask_become_pass" = Some ask_become_pass →
       truthy ask_become_pass = false →
       parse_args w args self =
         match read_vault_file w path with
         | Ok secret =>
             (set_mode ("become " +:+ str become_user +:+ " ") self,
              [ReadVaultFile path],
              Ok (<["vault_pass" := secret]>
                    (<["become_pass" := VNone]> (<["remote_pass" := VNone]> args))))
         | Raise e =>
             (set_mode ("become " +:+ str become_user +:+ " ") self,
              [ReadVaultFile path], Raise e)
         end).
Proof.
  intros Hbe Htbe Hu Hvf Htvf.
  assert (∀ rp bp,
    (resolve_mode (<["become_pass" := bp]> (<["remote_pass" := rp]> args)) ;;
     resolve_vault w (<["become_pass" := bp]> (<["remote_pass" := rp]> args))) self
    = match read_vault_file w path with
      | Ok secret =>
          (set_mode ("become " +:+ str become_user +:+ " ") self,
           [ReadVaultFile path],
           Ok (<["vault_pass" := secret]>
                 (<["become_pass" := bp]> (<["remote_pass" := rp]> args))))
      | Raise e =>
          (set_mode ("become " +:+ str become_user +:+ " ") self,
           [ReadVaultFile path], Raise e)
      end) as Htail.
  { intros rp bp.
    rewrite bind_run, (resolve_mode_become _ self become become_user) by lookup_ne.
    rewrite (resolve_vault_read w _ _ path) by lookup_ne.
    by destruct (read_vault_file w path). }
  assert (∀ t, Forall (early_event (runner self)) t → ∀ p, ReadVaultFile p ∉ t) as Hearly.
  { intros t Ht p Hin. rewrite Forall_forall in Ht. by apply (Ht _ Hin). }
  split.
  - destruct (checks_and_passwords_run w args self) as (t1 & r1 & Hf & Fe & Hshape).
    rewrite parse_args_split, bind_run, Hf. destruct r1 as [a|e].
    + destruct (Hshape a eq_refl) as (rp & bp & ->).
      split_and!; [by apply Hearly|by eexists _, _|].
      rewrite Htail. by destruct (read_vault_file w path).
    + split; [by apply Hearly|done].
  - intros version inventory ask_pass ask_become_pass Hv Htv Hi Hn Hp Ha Hta Hb Htb.
    rewrite (parse_args_after_checks w args self version inventory) by done.
    rewrite bind_run, (resolve_remote_pass_skipped w args self ask_pass) by done.
    rewrite bind_run, (resolve_become_pass_skipped w _ self ask_become_pass) by lookup_ne.
    rewrite Htail. by destruct (read_vault_file w path).
Qed.

Lemma parse_args_vault_witness :
  parse_args Sample.world Cases.vault_ns new_script =
    (set_mode "become root " new_script, [ReadVaultFile (VStr "vault.txt")],
     Ok (<["vault_pass" := VStr "vault-secret"]>
           (<["become_pass" := VNone]> (<["remote_pass" := VNone]> Cases.vault_ns))))
  ∧ parse_args Cases.broken Cases.vault_ns new_script =
      (set_mode "become root " new_script, [ReadVaultFile (VStr "vault.txt")],
       Raise (AnsibleError "Could not read vault file"))
  ∧ parse_args Sample.world Cases.ask_vault_ns new_script =
      (set_mode "become root " new_script,
       [Getpass "Enter remote user password: "; Getpass "Enter become password: ";
        ReadVaultFile (VStr "vault.txt")],
       Ok (<["vault_pass" := VStr "vault-secret"]>
             (<["become_pass" := VStr "secret"]>
                (<["remote_pass" := VStr "secret"]> Cases.ask_vault_ns)))).
Proof.
  split_and!.
  - exact (proj2 (parse_args_vault Sample.world Cases.vault_ns new_script
                    (VBool true) (VStr "root") (VStr "vault.txt")
                    eq_refl eq_refl eq_refl eq_refl eq_refl)
             (VBool false) (VStr "/etc/ansible/hosts") (VBool false) (VBool false)
             eq_refl eq_refl eq_refl eq_refl eq_refl eq_refl eq_refl eq_refl eq_refl).
  - exact (proj2 (parse_args_vault Cases.broken Cases.vault_ns new_script
                    (VBool true) (VStr "root") (VStr "vault.txt")
                    eq_refl eq_refl eq_refl eq_refl eq_refl)
             (VBool false) (VStr "/etc/ansible/hosts") (VBool false) (VBool false)
             eq_refl eq_refl eq_refl eq_refl eq_refl eq_refl eq_refl eq_refl eq_refl).
  - pose proof (proj1 (parse_args_vault Sample.world Cases.ask_vault_ns new_script
                         (VBool true) (VStr "root") (VStr "vault.txt")
                         eq_refl eq_refl eq_refl eq_refl eq_refl)) as H.
    exact (proj2 (proj2 H)).
Defined.

(** ** Inventory errors *)

(** X8. [parse_args] has no handler around the inventory query: when
    building the inventory or listing its hosts raises, the exception leaves
    [parse_args] as it was raised (an [AnsibleError] stays an
    [AnsibleError]), no exit message is printed and nothing after the check
    runs. *)
Theorem parse_args_inventory_error w args self version inventory pattern e :
  args !! "version" = Some version → truthy version = false →
  args !! "inventory" = Some inventory → is_none inventory = false →
  args !! "pattern" = Some pattern →
  list_hosts w inventory pattern = Raise e →
  parse_args w args self = (self, [ListHosts inventory pattern], Raise e).
Proof.
  intros Hv Htv Hi Hn Hp Hl. unfold parse_args.
  rewrite (bind_silent _ _ _ tt) by by apply (check_version_unset _ _ _ version).
  rewrite (bind_silent _ _ _ tt) by by apply (check_inventory_set _ _ inventory).
  rewrite bind_run. unfold check_pattern. rewrite Hp.
  unfold_monad. by rewrite Hi, Hp, Hl.
Qed.

Lemma parse_args_inventory_error_witness :
  parse_args Cases.broken Sample.adhoc_ns new_script =
    (new_script, [ListHosts (VStr "/etc/ansible/hosts") (VList ["c"])],
     Raise (AnsibleError "Unable to find an inventory file")).
Proof.
  exact (parse_args_inventory_error Cases.broken Sample.adhoc_ns new_script
           (VBool false) (VStr "/etc/ansible/hosts") (VList ["c"])
           (AnsibleError "Unable to find an inventory file")
           eq_refl eq_refl eq_refl eq_refl eq_refl eq_refl).
Defined.

(** ** The su toggle alone *)

(** X9. No schema declares [su_user], which the su branch of mode resolution
    reads: on a namespace of either schema with su set and become not set,
    [parse_args] never returns, the mode is never assigned, and once the
    checks and the password steps are passed the run ends in
    [AttributeError] for [su_user]. *)
Theorem su_without_become_fails w args self become su :
  declares PlaybookScript_dests args ∨ declares AnsibleScript_dests args →
  args !! "become" = Some become → truthy become = false →
  args !! "su" = Some su → truthy su = true →
  (∀ args', result_of (parse_args w args self) ≠ Ok args')
  ∧ state_of (parse_args w args self) = self
  ∧ (∀ rp bp,
       resolve_mode (<["become_pass" := bp]> (<["remote_pass" := rp]> args)) self
       = (self, [], Raise (AttributeError "su_user"))).
Proof.
  intros Hd Hb Htb Hs Hts.
  assert (args !! "su_user" = None) as Hu.
  { destruct Hd as [Hd|Hd]; apply (declares_undeclared _ _ _ Hd);
      by apply (bool_decide_unpack _). }
  assert (∀ rp bp,
    resolve_mode (<["become_pass" := bp]> (<["remote_pass" := rp]> args)) self
    = (self, [], Raise (AttributeError "su_user"))) as Hmode.
  { intros rp bp. apply (resolve_mode_su_undeclared _ _ become su); lookup_ne. }
  destruct (parse_args_spine w args self) as [(t0 & e & H)|(t1 & rp & bp & _ & _ & H)].
  { rewrite H. by split_and!. }
  rewrite H, bind_run, Hmode. by split_and!.
Qed.

Lemma su_without_become_fails_witness :
  state_of (parse_args Sample.world Sample.su_only_ns new_script) = new_script
  ∧ resolve_mode
      (<["become_pass" := VNone]> (<["remote_pass" := VNone]> Sample.su_only_ns))
      new_script
    = (new_script, [], Raise (AttributeError "su_user")).
Proof.
  assert (declares PlaybookScript_dests Sample.su_only_ns) as Hd.
  { unfold declares. apply (bool_decide_unpack _). vm_compute. exact I. }
  pose proof (su_without_become_fails Sample.world Sample.su_only_ns new_script
                (VBool false) (VBool true) (or_introl Hd)
                eq_refl eq_refl eq_refl eq_refl) as (_ & H2 & H3).
  exact (conj H2 (H3 VNone VNone)).
Defined.

(** ** The namespace returned *)

(** X10. Whenever [parse_args] returns, the namespace it returns is the one
    it was given with exactly the attributes [remote_pass], [become_pass]
    and [vault_pass] assigned: every other attribute is there with the value
    it had, and no attribute is lost. *)
Theorem parse_args_attributes w args self self' t args' :
  parse_args w args self = (self', t, Ok args') →
  dom args' = {["remote_pass"; "become_pass"; "vault_pass"]} ∪ dom args
  ∧ (∀ k, k ≠ "remote_pass" → k ≠ "become_pass" → k ≠ "vault_pass" →
       args' !! k = args !! k)
  ∧ is_Some (args' !! "remote_pass")
  ∧ is_Some (args' !! "become_pass")
  ∧ is_Some (args' !! "vault_pass").
Proof.
  intros H. split_and!.
  - apply parse_args_Ok_inv in H as (rp & bp & vp & -> & _).
    rewrite !dom_insert_L. apply set_eq. intros k.
    rewrite !elem_of_union, !elem_of_singleton. tauto.
  - intros k ???. by apply (parse_args_keeps _ _ _ _ _ _ k H).
  - apply parse_args_Ok_inv in H as (rp & bp & vp & -> & _). by simplify_map_eq.
  - apply parse_args_Ok_inv in H as (rp & bp & vp & -> & _). by simplify_map_eq.
  - apply parse_args_Ok_inv in H as (rp & bp & vp & -> & _). by simplify_map_eq.
Qed.

Lemma parse_args_attributes_witness :
  Sample.validated_playbook_ns !! "playbook" = Sample.playbook_ns !! "playbook"
  ∧ is_Some (Sample.validated_playbook_ns !! "vault_pass").
Proof.
  pose proof (parse_args_attributes Sample.world Sample.playbook_ns new_script _ _ _
                parse_args_playbook_sample) as (_ & H2 & _ & _ & H5).
  refine (conj (H2 "playbook" _ _ _) H5); discriminate.
Defined.

(** ** What the adapters hand to the engine *)

Ltac step_kwargs H :=
  match type of H with
  | context [match ?args !! ?k with _ => _ end] =>
      let v := fresh "v" in
      let E := fresh "E" in
      destruct (args !! k) as [v|] eqn:E; simpl in H; [|discriminate H]
  | context [match realpath ?w ?x with _ => _ end] =>
      let v := fresh "h" in
      let E := fresh "E" in
      destruct (realpath w x) as [v|] eqn:E; simpl in H; [|discriminate H]
  | context [match format_d ?x with _ => _ end] =>
      let v := fresh "f" in
      let E := fresh "E" in
      destruct (format_d x) as [v|] eqn:E; simpl in H; [|discriminate H]
  end.

(** X11. The keyword arguments [PlaybookScript.run] builds: always the same
    25 names in the same order; the options this script does not expose are
    fixed ([transport] smart, no extra vars, tags, subset or inventory
    object, no check, diff, fail-fast or forced handlers); [forks] is passed
    as the decimal text of the integer, not as the integer; the vault secret
    and the become toggle are passed as the namespace holds them; the su
    toggle is not passed at all.  Building them prints nothing and leaves
    the script untouched. *)
Theorem playbook_runner_options w args self self' t kw :
  PlaybookScript_kwargs w args self = (self', t, Ok kw) →
  self' = self ∧ t = []
  ∧ kw.*1 =
      ["playbook"; "host_list"; "module_path"; "forks"; "timeout"; "remote_user";
       "remote_pass"; "become_pass"; "remote_port"; "transport"; "private_key_file";
       "become"; "become_user"; "extra_vars"; "only_tags"; "skip_tags"; "subset";
       "inventory"; "check"; "diff"; "any_errors_fatal"; "vault_password";
       "force_handlers"; "show_colors"; "show_facts"]
  ∧ (list_to_map kw : gmap string value) !! "su" = None
  ∧ (list_to_map kw : gmap string value) !! "transport" = Some (VStr "smart")
  ∧ (∀ k, k ∈ ["extra_vars"; "only_tags"; "skip_tags"; "subset"; "inventory"] →
       (list_to_map kw : gmap string value) !! k = Some VNone)
  ∧ (∀ k, k ∈ ["check"; "diff"; "any_errors_fatal"; "force_handlers"] →
       (list_to_map kw : gmap string value) !! k = Some (VBool false))
  ∧ (list_to_map kw : gmap string value) !! "vault_password" = args !! "vault_pass"
  ∧ (list_to_map kw : gmap string value) !! "become" = args !! "become"
  ∧ (∃ forks n, args !! "forks" = Some forks ∧ format_d forks = Ok n
       ∧ (list_to_map kw : gmap string value) !! "forks" = Some (VStr n)).
Proof.
  intros H. unfold PlaybookScript_kwargs in H. unfold_monad.
  repeat step_kwargs H.
  injection H as <- <- <-.
  split_and!; try reflexivity.
  - intros k Hk. repeat (apply elem_of_cons in Hk as [->|Hk]; [reflexivity|]).
    by apply elem_of_nil in Hk.
  - intros k Hk. repeat (apply elem_of_cons in Hk as [->|Hk]; [reflexivity|]).
    by apply elem_of_nil in Hk.
  - by eexists _, _.
Qed.

Lemma playbook_kwargs_sample :
  PlaybookScript_kwargs Sample.world Sample.validated_playbook_ns new_script
  = (new_script, [], Ok Sample.playbook_kwargs).
Proof.
  vm_cast_no_check (eq_refl (new_script, @nil event, @Ok kwargs Sample.playbook_kwargs)).
Qed.

Lemma playbook_runner_options_witness :
  (list_to_map Sample.playbook_kwargs : gmap string value) !! "su" = None
  ∧ (list_to_map Sample.playbook_kwargs : gmap string value) !! "vault_password"
    = Sample.validated_playbook_ns !! "vault_pass".
Proof.
  pose proof (playbook_runner_options Sample.world Sample.validated_playbook_ns
                new_script new_script [] Sample.playbook_kwargs playbook_kwargs_sample)
    as (_ & _ & _ & Hsu & _ & _ & _ & Hv & _).
  exact (conj Hsu Hv).
Defined.

(** X12. The keyword arguments [AnsibleScript.run] builds: always the same
    16 names; both the su and the become toggle are passed, each as the
    namespace holds it, so with both set the engine receives both; [forks]
    is passed as decimal text; no vault secret is passed. *)
Theorem adhoc_runner_options w args self self' t kw :
  AnsibleScript_kwargs w args self = (self', t, Ok kw) →
  self' = self ∧ t = []
  ∧ kw.*1 =
      ["host_list"; "module_path"; "module_name"; "module_args"; "forks"; "timeout";
       "pattern"; "remote_user"; "remote_pass"; "remote_port"; "private_key_file";
       "su"; "become"; "become_user"; "become_pass"; "show_colors"]
  ∧ (list_to_map kw : gmap string value) !! "su" = args !! "su"
  ∧ (list_to_map kw : gmap string value) !! "become" = args !! "become"
  ∧ (list_to_map kw : gmap string value) !! "pattern" = args !! "pattern"
  ∧ (list_to_map kw : gmap string value) !! "vault_password" = None
  ∧ (∃ forks n, args !! "forks" = Some forks ∧ format_d forks = Ok n
       ∧ (list_to_map kw : gmap string value) !! "forks" = Some (VStr n)).
Proof.
  intros H. unfold AnsibleScript_kwargs in H. unfold_monad.
  repeat step_kwargs H.
  injection H as <- <- <-.
  split_and!; try reflexivity. by eexists _, _.
Qed.

Lemma adhoc_kwargs_sample :
  AnsibleScript_kwargs Sample.world Cases.validated_adhoc_ns new_script
  = (new_script, [], Ok Cases.adhoc_kwargs).
Proof.
  vm_cast_no_check (eq_refl (new_script, @nil event, @Ok kwargs Cases.adhoc_kwargs)).
Qed.

Lemma adhoc_runner_options_witness :
  (list_to_map Cases.adhoc_kwargs : gmap string value) !! "su"
    = Cases.validated_adhoc_ns !! "su"
  ∧ (list_to_map Cases.adhoc_kwargs : gmap string value) !! "vault_password" = None.
Proof.
  pose proof (adhoc_runner_options Sample.world Cases.validated_adhoc_ns
                new_script new_script [] Cases.adhoc_kwargs adhoc_kwargs_sample)
    as (_ & _ & _ & Hsu & _ & _ & Hv & _).
  exact (conj Hsu Hv).
Defined.

(** ** Failures before the engine call *)

(** X13. A forks attribute that is not a number makes [PlaybookScript.run]
    fail with [TypeError] while it formats the keyword arguments: no runner
    is built and the engine is not called. *)
Theorem playbook_run_forks_not_a_number w args self playbook inventory host_list
    module_path forks e :
  args !! "playbook" = Some playbook → truthy playbook = true →
  args !! "inventory" = Some inventory → realpath w inventory = Ok host_list →
  args !! "module_path" = Some module_path →
  args !! "forks" = Some forks → format_d forks = Raise e →
  PlaybookScript_run w args self = (self, [], Raise e)
  ∧ e = TypeError ("%d format: a number is required, not " +:+ type_name forks).
Proof.
  intros Hp Htp Hi Hr Hm Hf He. split.
  - unfold PlaybookScript_run, PlaybookScript_kwargs. unfold_monad.
    by rewrite Hp, Htp, Hi, Hr, Hm, Hf, He.
  - destruct forks; simpl in He; by simplify_eq.
Qed.

Lemma playbook_run_forks_not_a_number_witness :
  PlaybookScript_run Sample.world Cases.no_forks_ns new_script =
    (new_script, [],
     Raise (TypeError "%d format: a number is required, not NoneType")).
Proof.
  exact (proj1 (playbook_run_forks_not_a_number Sample.world Cases.no_forks_ns
                  new_script (VStr "site.yml") (VStr "/etc/ansible/hosts")
                  (VStr "/etc/ansible/hosts") VNone VNone
                  (TypeError "%d format: a number is required, not NoneType")
                  eq_refl eq_refl eq_refl eq_refl eq_refl eq_refl eq_refl)).
Defined.

(** X14. The runner is built outside the [try]: when the constructor of the
    runner class raises, the exception leaves [run] as it was raised, an
    [AnsibleError] included, which is not turned into a [RunnerError]; the
    engine is not called.  This holds for both adapters. *)
Theorem constructor_errors_not_translated w args self kw e :
  (AnsibleScript_kwargs w args self = (self, [], Ok kw) →
   runner_new w AnsibleRunner kw = Raise e →
   AnsibleScript_run w args self = (self, [NewRunner AnsibleRunner kw], Raise e))
  ∧ (∀ playbook,
       args !! "playbook" = Some playbook → truthy playbook = true →
       PlaybookScript_kwargs w args self = (self, [], Ok kw) →
       runner_new w PlaybookRunner kw = Raise e →
       PlaybookScript_run w args self = (self, [NewRunner PlaybookRunner kw], Raise e)).
Proof.
  split.
  - intros Hkw Hnew. unfold AnsibleScript_run.
    rewrite (bind_silent _ _ _ kw) by done.
    rewrite bind_run. unfold new_runner. unfold_monad. by rewrite Hnew.
  - intros playbook Hp Ht Hkw Hnew. unfold PlaybookScript_run.
    rewrite (bind_silent _ _ _ playbook) by by apply getattr_Some.
    rewrite Ht. rewrite (bind_silent _ _ _ tt) by done.
    rewrite (bind_silent _ _ _ kw) by done.
    rewrite bind_run. unfold new_runner. unfold_monad. by rewrite Hnew.
Qed.

Lemma constructor_errors_not_translated_witness :
  PlaybookScript_run Cases.broken Sample.validated_playbook_ns new_script =
    (new_script, [NewRunner PlaybookRunner Sample.playbook_kwargs],
     Raise (AnsibleError "the playbook could not be found")).
Proof.
  exact (proj2 (constructor_errors_not_translated Cases.broken
                  Sample.validated_playbook_ns new_script Sample.playbook_kwargs
                  (AnsibleError "the playbook could not be found"))
           (VStr "site.yml") eq_refl eq_refl playbook_kwargs_sample eq_refl).
Defined.

(** ** [parse_args] before [run] *)

(** X15. [PlaybookScript.run] needs the namespace [parse_args] returns: on
    the namespace of the playbook schema as argparse yields it, with a
    playbook given, it fails with [AttributeError] for [remote_pass] before
    a runner is built. *)
Theorem playbook_run_needs_parse_args w args self playbook inventory host_list
    forks n :
  declares PlaybookScript_dests args →
  args !! "playbook" = Some playbook → truthy playbook = true →
  args !! "inventory" = Some inventory → realpath w inventory = Ok host_list →
  args !! "forks" = Some forks → format_d forks = Ok n →
  PlaybookScript_run w args self = (self, [], Raise (AttributeError "remote_pass")).
Proof.
  intros Hd Hp Htp Hi Hr Hf Hn.
  assert (∀ k, k ∈ PlaybookScript_dests → is_Some (args !! k)) as Hin.
  { intros k. apply declares_declared, Hd. }
  destruct (Hin "module_path") as [module_path Hm]; [by apply (bool_decide_unpack _)|].
  destruct (Hin "timeout") as [timeout Hto]; [by apply (bool_decide_unpack _)|].
  destruct (Hin "user") as [user Hu]; [by apply (bool_decide_unpack _)|].
  assert (args !! "remote_pass" = None) as Hrp.
  { apply (declares_undeclared _ _ _ Hd). by apply (bool_decide_unpack _). }
  unfold PlaybookScript_run, PlaybookScript_kwargs. unfold_monad.
  by rewrite Hp, Htp, Hi, Hr, Hm, Hf, Hn, Hto, Hu, Hrp.
Qed.

Lemma playbook_run_needs_parse_args_witness :
  PlaybookScript_run Sample.world Sample.playbook_ns new_script =
    (new_script, [], Raise (AttributeError "remote_pass")).
Proof.
  exact (playbook_run_needs_parse_args Sample.world Sample.playbook_ns new_script
           (VStr "site.yml") (VStr "/etc/ansible/hosts") (VStr "/etc/ansible/hosts")
           (VInt 5) "5" playbook_ns_declared
           eq_refl eq_refl eq_refl eq_refl eq_refl eq_refl).
Defined.

(** X16. In playbook mode the namespace [parse_args] returns has every
    attribute [PlaybookScript.run] reads: given a real path for the
    inventory and a forks attribute that is a number, the keyword arguments
    are built, with no [AttributeError]. *)
Theorem validated_namespace_is_complete w args self self' t args' inventory host_list
    forks n :
  declares PlaybookScript_dests args →
  parse_args w args self = (self', t, Ok args') →
  args !! "inventory" = Some inventory → realpath w inventory = Ok host_list →
  args !! "forks" = Some forks → format_d forks = Ok n →
  ∃ kw, PlaybookScript_kwargs w args' self' = (self', [], Ok kw).
Proof.
  intros Hd Hparse Hi Hr Hf Hn.
  pose proof (λ k, parse_args_keeps w args self self' t args' k Hparse) as Hkeep.
  destruct (parse_args_Ok_inv w args self self' t args' Hparse)
    as (rp & bp & vp & Heq & _).
  assert (args' !! "remote_pass" = Some rp) as Hrp by (subst args'; by simplify_map_eq).
  assert (args' !! "become_pass" = Some bp) as Hbp by (subst args'; by simplify_map_eq).
  assert (args' !! "vault_pass" = Some vp) as Hvp by (subst args'; by simplify_map_eq).
  clear Heq.
  assert (∀ k, k ∈ PlaybookScript_dests → ∃ v, args' !! k = Some v) as Hin.
  { intros k Hk. destruct (declares_declared _ _ _ Hd Hk) as [v Hv].
    exists v. rewrite Hkeep; [done|intros ->; revert Hk..];
      by apply (bool_decide_unpack _). }
  assert (args' !! "inventory" = Some inventory) as Hi' by by rewrite Hkeep.
  assert (args' !! "forks" = Some forks) as Hf' by by rewrite Hkeep.
  destruct (Hin "playbook") as [? H1]; [by apply (bool_decide_unpack _)|].
  destruct (Hin "module_path") as [? H2]; [by apply (bool_decide_unpack _)|].
  destruct (Hin "timeout") as [? H3]; [by apply (bool_decide_unpack _)|].
  destruct (Hin "user") as [? H4]; [by apply (bool_decide_unpack _)|].
  destruct (Hin "port") as [? H5]; [by apply (bool_decide_unpack _)|].
  destruct (Hin "private_key") as [? H6]; [by apply (bool_decide_unpack _)|].
  destruct (Hin "become") as [? H7]; [by apply (bool_decide_unpack _)|].
  destruct (Hin "become_user") as [? H8]; [by apply (bool_decide_unpack _)|].
  destruct (Hin "colors") as [? H9]; [by apply (bool_decide_unpack _)|].
  destruct (Hin "show_facts") as [? H10]; [by apply (bool_decide_unpack _)|].
  unfold PlaybookScript_kwargs. unfold_monad.
  rewrite H1, Hi', Hr, H2, Hf', Hn, H3, H4, Hrp, Hbp, H5, H6, H7, H8, Hvp, H9, H10.
  by eexists.
Qed.

Lemma validated_namespace_is_complete_witness :
  ∃ kw, PlaybookScript_kwargs Sample.world Sample.validated_playbook_ns
          (set_mode "become root " new_script)
        = (set_mode "become root " new_script, [], Ok kw).
Proof.
  exact (validated_namespace_is_complete Sample.world Sample.playbook_ns new_script
           _ _ _ (VStr "/etc/ansible/hosts") (VStr "/etc/ansible/hosts") (VInt 5) "5"
           playbook_ns_declared parse_args_playbook_sample
           eq_refl eq_refl eq_refl eq_refl).
Defined.

(** ** The script object during [run] *)

Lemma guarded_run_stateless w cls kw : stateless (guarded_run w cls kw).
Proof.
  intros self. unfold guarded_run, in_flight_call, SIGINT.
  destruct (runner_run w cls kw); [by eexists _, _|].
  destruct (runner self); by eexists _, _.
Qed.

(** X17. Neither [run] method writes to the script: whatever the namespace,
    the engine's answer or an interrupt during the call, [self.runner] and
    [self.mode] are after [run] what they were before. *)
Theorem run_leaves_script_untouched w args self :
  state_of (AnsibleScript_run w args self) = self
  ∧ state_of (PlaybookScript_run w args self) = self.
Proof.
  assert (stateless (AnsibleScript_run w args)) as Ha.
  { unfold AnsibleScript_run, AnsibleScript_kwargs, new_runner.
    repeat first
      [ apply guarded_run_stateless
      | apply stateless_bind; [|intros ?]
      | solve [eauto with stateless] ]. }
  assert (stateless (PlaybookScript_run w args)) as Hp.
  { unfold PlaybookScript_run, PlaybookScript_kwargs, new_runner.
    repeat first
      [ apply guarded_run_stateless
      | apply stateless_bind; [|intros ?]
      | apply stateless_when
      | solve [eauto with stateless] ]. }
  destruct (Ha self) as (t1 & r1 & ->). destruct (Hp self) as (t2 & r2 & ->).
  done.
Qed.

(** ** Attributes the adapters do not read *)

(** X18. [PlaybookScript.run] reads fifteen attributes of the namespace and
    no other: changing any other attribute (the su toggle, the module
    arguments declared by the playbook schema, the ask flags, the vault file
    path) changes nothing in what [run] does.  [AnsibleScript.run] likewise
    reads its sixteen attributes only: the vault secret has no effect on
    it. *)
Theorem run_ignores_other_attributes w args self k v :
  (k ∉ ["playbook"; "inventory"; "module_path"; "forks"; "timeout"; "user";
        "remote_pass"; "become_pass"; "port"; "private_key"; "become";
        "become_user"; "vault_pass"; "colors"; "show_facts"] →
   PlaybookScript_run w (<[k := v]> args) self = PlaybookScript_run w args self)
  ∧ (k ∉ ["inventory"; "module_path"; "module"; "args"; "forks"; "timeout";
          "pattern"; "user"; "remote_pass"; "port"; "private_key"; "su"; "become";
          "become_user"; "become_pass"; "colors"] →
     AnsibleScript_run w (<[k := v]> args) self = AnsibleScript_run w args self).
Proof.
  split; intros Hk.
  - unfold PlaybookScript_run, PlaybookScript_kwargs. unfold_monad.
    by rewrite !lookup_insert_ne
      by (intros ->; apply Hk; by apply (bool_decide_unpack _)).
  - unfold AnsibleScript_run, AnsibleScript_kwargs. unfold_monad.
    by rewrite !lookup_insert_ne
      by (intros ->; apply Hk; by apply (bool_decide_unpack _)).
Qed.

Lemma run_ignores_other_attributes_witness :
  PlaybookScript_run Sample.world
    (<["su" := VBool false]> Sample.validated_playbook_ns) new_script
  = PlaybookScript_run Sample.world Sample.validated_playbook_ns new_script.
Proof.
  refine (proj1 (run_ignores_other_attributes Sample.world
                   Sample.validated_playbook_ns new_script "su" (VBool false)) _).
  by apply (bool_decide_unpack _).
Defined.
